(** * Verification of the GMaps auto-order service ([src/index.js])

    A shallow embedding of the reconciliation run: the two PostgreSQL stores
    are lists of rows, the SQL statements of [run] are list programs over
    them, the external dashboard is a parameter of the run, and the body of
    [run] is a state-passing function with a fatal outcome for a rejected
    submission.

    Conventions of the model.
    - Text is [string] (bytes); [LIKE] works on bytes, case folding is the
      ASCII one, and [ORDER BY] on text is the byte-wise order.
    - Counters are [nat]; campaign and city keys are [Z].
    - [Math.ceil(a / b)] is the ceiling of the exact quotient.
    - The stores themselves never fail here; the only modelled failure is a
      rejected [axios.post], which aborts the run as the source does.
    - The run starts after the check of the connection strings (line 100);
      closing the two pools in the [finally] block touches neither store
      and is left out. *)

From Stdlib Require Import List String Ascii ZArith Arith Bool Lia.
From Stdlib Require Import DecimalString.
From Stdlib Require QArith Qround.
Import ListNotations.
Open Scope string_scope.
Open Scope list_scope.

Set Implicit Arguments.

(** ** PostgreSQL text operators *)

Module Sql.

(** ASCII case folding, as [ILIKE] applies it to both operands. *)
Definition lower_ascii (a : ascii) : ascii :=
  let n := nat_of_ascii a in
  if ((65 <=? n) && (n <=? 90))%nat then ascii_of_nat (n + 32) else a.

Fixpoint lower (s : string) : string :=
  match s with
  | EmptyString => EmptyString
  | String a r => String (lower_ascii a) (lower r)
  end.

(** [like pat s] is [s LIKE pat] with the default escape character:
    [%] matches any run of characters, [_] any one character, and a
    backslash makes the next pattern character literal.  A pattern that
    ends in a lone backslash is an error in PostgreSQL; the patterns of
    this program always end in [%], so that branch is answered [false]. *)
Fixpoint like (pat : string) : string -> bool :=
  match pat with
  | EmptyString =>
      fun s => match s with EmptyString => true | String _ _ => false end
  | String p pat' =>
      if Ascii.eqb p "%" then
        fix any (s : string) : bool :=
          like pat' s
          || match s with EmptyString => false | String _ s' => any s' end
      else if Ascii.eqb p "_" then
        fun s =>
          match s with EmptyString => false | String _ s' => like pat' s' end
      else if Ascii.eqb p "\" then
        match pat' with
        | EmptyString => fun _ => false
        | String q pat'' =>
            fun s =>
              match s with
              | EmptyString => false
              | String a s' => Ascii.eqb q a && like pat'' s'
              end
        end
      else
        fun s =>
          match s with
          | EmptyString => false
          | String a s' => Ascii.eqb p a && like pat' s'
          end
  end.

Definition ilike (pat s : string) : bool := like (lower pat) (lower s).

(** A pattern character that stands for itself. *)
Definition plain (a : ascii) : bool :=
  negb (Ascii.eqb a "%") && negb (Ascii.eqb a "_") && negb (Ascii.eqb a "\").

Fixpoint all_plain (s : string) : bool :=
  match s with
  | EmptyString => true
  | String a r => plain a && all_plain r
  end.

(** No escape character in a text used as a pattern. *)
Fixpoint no_backslash (s : string) : bool :=
  match s with
  | EmptyString => true
  | String a r => negb (Ascii.eqb a "\") && no_backslash r
  end.

(** [ORDER BY] as a stable insertion sort on a boolean order. *)
Fixpoint insert_by {A} (le : A -> A -> bool) (x : A) (l : list A) : list A :=
  match l with
  | [] => [x]
  | y :: r => if le x y then x :: l else y :: insert_by le x r
  end.

Definition order_by {A} (le : A -> A -> bool) (l : list A) : list A :=
  fold_right (insert_by le) [] l.

(** A nullable column compared with a value: [NULL = v] is never true. *)
Definition null_eq {A} (eqb : A -> A -> bool) (col : option A) (v : A) : bool :=
  match col with
  | None => false
  | Some x => eqb x v
  end.

End Sql.

(** ** Configuration (lines 19-85) *)

Definition BATCH_SIZE : nat := 2000.

Definition CATEGORIES : list string := [
  "Accountant"; "Attorney"; "Auto repair shop"; "Bank"; "Church";
  "Construction company"; "Dental clinic"; "Doctor"; "Funeral home";
  "General contractor"; "Gym"; "Hardware store"; "HVAC contractor";
  "Insurance agency"; "Law firm"; "Pharmacy"; "Place of worship";
  "Real estate agency"; "School"; "Tax preparation service"; "Veterinarian";
  "Appliance store"; "Architect"; "Assisted living facility"; "Auto dealer";
  "Auto parts store"; "Bowling alley"; "Car rental agency";
  "Child care agency"; "Chiropractor"; "Community center"; "Credit union";
  "Day care center"; "Driving school"; "Electronics store";
  "Employment agency"; "Eye care center"; "Financial planner";
  "Fitness center"; "Furniture store"; "Golf course"; "Home goods store";
  "Hospital"; "Hotel"; "Martial arts school"; "Mattress store";
  "Medical clinic"; "Movie theater"; "Music school"; "Nursing home";
  "Optometrist"; "Personal trainer"; "Physical therapy clinic"; "Preschool";
  "Printing service"; "Property management company"; "Recreation center";
  "Senior center"; "Tire shop"; "Title company"; "Travel agency";
  "Tutoring service"; "Urgent care center"; "Wedding venue";
  "Wellness center"; "Yoga studio"; "Addiction treatment center";
  "After school program"; "Allergist"; "Art gallery"; "Art school";
  "Audiologist"; "Banquet hall"; "Building materials store";
  "Business management consultant"; "Cardiologist"; "Co-working space";
  "College"; "Commercial printer"; "Computer consultant";
  "Computer support and services"; "Consultant"; "Country club";
  "Dance school"; "Department store"; "Dermatologist"; "Engineer";
  "Equipment rental agency"; "Event venue"; "Gastroenterologist";
  "Gymnastics center"; "Hospice"; "Indoor playground"; "Investment company";
  "Laboratory"; "Language school"; "Loan agency"; "Machine shop";
  "Mental health clinic"; "Mortgage lender"; "Motorcycle dealer";
  "Neurologist"; "Non-profit organization"; "Notary public";
  "Nursing agency"; "Nutritionist"; "Office furniture store";
  "Ophthalmologist"; "Orthopedic clinic"; "Osteopath"; "Pediatrician";
  "Plumbing supply store"; "Podiatrist"; "Private investigator";
  "Rehabilitation center"; "RV dealer"; "Sports club"; "Surgeon";
  "Swimming pool"; "Technical school"; "Truck dealer"; "Truck repair shop";
  "University"; "Urologist"; "Vocational school"; "Warehouse";
  "Aerospace company"; "Association or organization"; "Automation company";
  "Biotechnology company"; "Blood bank"; "Bottling company";
  "Business school"; "Call center"; "Car inspection station";
  "Chamber of commerce"; "Chemical wholesaler"; "Computer security service";
  "Computer training school"; "Conference center"; "Convention center";
  "Corporate office"; "Council"; "Credit counseling service";
  "Culinary school"; "Data recovery service"; "Dental laboratory";
  "Diagnostic center"; "Dialysis center"; "Distribution service";
  "Education center"; "Electric motor repair shop";
  "Electrical supply store"; "Factory"; "Farm equipment supplier";
  "Fertility clinic"; "Fitness equipment store"; "Flight school";
  "Food processing equipment"; "Freight forwarding service"; "Geriatrician";
  "Industrial chemicals wholesaler"; "Industrial design company";
  "Industrial equipment supplier"; "Insurance company"; "Labor union";
  "Logistics service"; "Management school"; "Manufacturer";
  "Medical diagnostic imaging center"; "Medical laboratory";
  "Metal fabricator"; "Metal supplier"; "MRI center";
  "Office space rental agency"; "Oncologist"; "Otolaryngologist";
  "Outlet store"; "Outpatient surgery center"; "Packaging supply store";
  "Pain management physician"; "Payroll service"; "Pharmaceutical company";
  "Plastic fabrication company"; "Plastic surgery clinic";
  "Printing equipment supplier"; "Psychiatric hospital"; "Radiology center";
  "Reproductive health clinic"; "Safety equipment supplier";
  "Scientific equipment supplier"; "Shipping company"; "Shopping mall";
  "Showroom"; "Software company"; "Special education school";
  "Sports complex"; "Sports medicine clinic"; "Steel distributor";
  "Steel fabricator"; "Student housing center"; "Surgical center";
  "Telecommunications service provider"; "Tennis court"; "Textile mill";
  "Tool store"; "Training centre"; "Veterinary emergency hospital";
  "Welding supply store"; "Wholesaler"; "Women's health clinic"
].

(** ** The registry store (recycling database) *)

Module InstantCampaigns.
Record row := mk
  { id : Z; campaign_name : string; is_active : bool; client_id : Z }.
End InstantCampaigns.

Module CampaignCities.
Record row := mk { campaign_id : Z; city_id : Z }.
End CampaignCities.

Module ClientCityClaims.
Record row := mk { client_id : Z; city_id : Z }.
End ClientCityClaims.

Module Cities.
Record row := mk { id : Z; city_name : string; state_code : string }.
End Cities.

Record Recycling := mkRecycling
  { instant_campaigns : list InstantCampaigns.row;
    campaign_cities : list CampaignCities.row;
    client_city_claims : list ClientCityClaims.row;
    cities : list Cities.row }.

(** Rows of the campaign query (lines 110-116). *)
Record Campaign := mkCampaign { id : Z; campaign_name : string }.

(** Rows of the city query (lines 145-162). *)
Record City := mkCity { city_name : string; state_code : string }.

Definition City_eq_dec (a b : City) : {a = b} + {a <> b}.
Proof. decide equality; apply string_dec. Defined.

(** ** The tracker store (dashboard database) *)

Definition BatchId := string.

Module JobsBatch.
Record row := mk
  { batch_id : BatchId;
    name : string;
    campaign_name : option string;
    lead_recycling_campaign_id : option Z }.
End JobsBatch.

Definition Gmaps := list JobsBatch.row.

(** ** The request sent to the dashboard (lines 202-208) *)

Module Payload.
Record t := mk
  { name : string;
    queries : list string;
    autoImport : bool;
    targetStates : list string;
    leadRecyclingCampaignId : Z }.
End Payload.

(** The dashboard answers [POST /api/batches] with a batch id and leaves the
    tracker store in a new state, or rejects the request.  It is a service
    outside this program: the run takes it as a parameter, and the theorems
    that depend on what it stores say so in a hypothesis. *)
Definition Dashboard := Payload.t -> Gmaps -> option (BatchId * Gmaps).

(** ** SQL statements of [run] *)

(** Lines 110-116: active campaigns of the GMaps family, by ascending id. *)
Definition select_campaigns (recycling : Recycling) : list Campaign :=
  map (fun ic => mkCampaign (InstantCampaigns.id ic)
                            (InstantCampaigns.campaign_name ic))
    (Sql.order_by
       (fun a b => (InstantCampaigns.id a <=? InstantCampaigns.id b)%Z)
       (filter
          (fun ic => Sql.ilike "%(GMaps)%" (InstantCampaigns.campaign_name ic)
                     && Bool.eqb (InstantCampaigns.is_active ic) true)
          (instant_campaigns recycling))).

(** Lines 129-135: the three-way match of one tracker row. *)
Definition batch_matches (c : Campaign) (b : JobsBatch.row) : bool :=
  Sql.null_eq Z.eqb (JobsBatch.lead_recycling_campaign_id b) (id c)
  || Sql.null_eq String.eqb (JobsBatch.campaign_name b) (campaign_name c)
  || Sql.like (campaign_name c ++ "%") (JobsBatch.name b).

Definition count_existing (gmaps : Gmaps) (c : Campaign) : nat :=
  List.length (filter (batch_matches c) gmaps).

(** Lines 149-151: first branch of the UNION. *)
Definition from_campaign_cities (recycling : Recycling) (cid : Z) : list Z :=
  map CampaignCities.city_id
    (filter (fun cc => (CampaignCities.campaign_id cc =? cid)%Z)
       (campaign_cities recycling)).

(** Lines 154-157: second branch, joined through the owning client. *)
Definition from_client_city_claims (recycling : Recycling) (cid : Z) : list Z :=
  flat_map
    (fun ccc =>
       map (fun _ => ClientCityClaims.city_id ccc)
         (filter
            (fun ic =>
               (InstantCampaigns.client_id ic =? ClientCityClaims.client_id ccc)%Z
               && (InstantCampaigns.id ic =? cid)%Z)
            (instant_campaigns recycling)))
    (client_city_claims recycling).

(** Lines 147-158: [UNION] keeps one copy of each city id. *)
Definition combined (recycling : Recycling) (cid : Z) : list Z :=
  nodup Z.eq_dec
    (from_campaign_cities recycling cid ++ from_client_city_claims recycling cid).

(** Lines 145-162: the whole city query. *)
Definition select_cities (recycling : Recycling) (cid : Z) : list City :=
  Sql.order_by (fun a b => (city_name a <=? city_name b)%string)
    (nodup City_eq_dec
       (flat_map
          (fun city_id =>
             map (fun c => mkCity (Cities.city_name c) (Cities.state_code c))
               (filter
                  (fun c => (Cities.id c =? city_id)%Z
                            && negb (Sql.ilike "%county%" (Cities.city_name c)))
                  (cities recycling)))
          (combined recycling cid))).

(** Lines 217-220: the correction write. *)
Definition update_campaign_name (baseName : string) (batchId : BatchId)
    (gmaps : Gmaps) : Gmaps :=
  map (fun b =>
         if (JobsBatch.batch_id b =? batchId)%string
         then JobsBatch.mk (JobsBatch.batch_id b) (JobsBatch.name b)
                (Some baseName) (JobsBatch.lead_recycling_campaign_id b)
         else b)
    gmaps.

(** ** Query planning (lines 173-200) *)

Definition location (city : City) : string :=
  (city_name city ++ ", " ++ state_code city)%string.

Definition query (cat loc : string) : string := (cat ++ " in " ++ loc)%string.

(** [Set.prototype.add] on an insertion-ordered set. *)
Definition set_add (x : string) (s : list string) : list string :=
  if existsb (String.eqb x) s then s else s ++ [x].

(** Lines 178-180: the inner loop pushes one query per category. *)
Definition push_categories (loc : string) (queries : list string) : list string :=
  fold_left (fun qs cat => qs ++ [query cat loc]) CATEGORIES queries.

(** Lines 173-182: both loops, threading [queries] and [targetStates]. *)
Definition build_queries (allCities : list City) : list string * list string :=
  fold_left
    (fun acc city =>
       (push_categories (location city) (fst acc),
        set_add (state_code city) (snd acc)))
    allCities ([], []).

(** [Math.ceil(a / b)] on non-negative integers. *)
Definition Math_ceil_div (a b : nat) : nat :=
  Z.to_nat (Qround.Qceiling (QArith_base.Qmake (Z.of_nat a) (Pos.of_nat b))).

(** [Array.prototype.slice(a, b)] for in-range non-negative bounds. *)
Definition slice {A} (l : list A) (a b : nat) : list A :=
  firstn (b - a) (skipn a l).

Definition decimal (n : nat) : string :=
  NilEmpty.string_of_uint (Nat.to_uint n).

(** Line 199. *)
Definition batch_name (baseName : string) (totalParts partNum : nat) : string :=
  if (1 <? totalParts)%nat
  then (baseName ++ " Part " ++ decimal partNum)%string
  else baseName.

(** Line 200. *)
Definition chunk_of (queries : list string) (i : nat) : list string :=
  slice queries (i * BATCH_SIZE) ((i + 1) * BATCH_SIZE).

(** Lines 202-208: the request for part [i]. *)
Definition payload_of (campaign : Campaign) (queries statesArray : list string)
    (totalParts i : nat) : Payload.t :=
  Payload.mk (batch_name (campaign_name campaign) totalParts (i + 1))
    (chunk_of queries i) true statesArray (id campaign).

(** The chunks the submission loop cuts, in order. *)
Definition plan_chunks (queries : list string) : list (list string) :=
  map (chunk_of queries) (seq 0 (Math_ceil_div (List.length queries) BATCH_SIZE)).

(** ** The run (lines 99-238) *)

(** What the process does to the outside, in order: console lines, the
    dashboard request, the correction write and the pause between parts. *)
Inductive Event :=
| LogFound (n : nat)
| LogChecking (name : string) (cid : Z)
| LogSkipExisting (cnt : nat)
| LogSkipNoCities
| LogCities (allCities : list City)
| LogPlan (nqueries totalParts : nat) (states : list string)
| LogDryRun
| HttpPost (payload : Payload.t)
| SqlUpdate (baseName : string) (batchId : BatchId)
| LogCreated (batchName : string) (batchId : BatchId) (n : nat)
| Delay (ms : nat)
| LogDone (created skipped : nat).

Record RunState := mkRunState
  { created : nat; skipped : nat; gmaps : Gmaps; console : list Event }.

(** A run either reaches its end or dies on a rejected submission; both
    carry the state reached, since nothing is rolled back. *)
Inductive Outcome :=
| Completed (st : RunState)
| Fatal (st : RunState).

Definition bind (o : Outcome) (k : RunState -> Outcome) : Outcome :=
  match o with
  | Completed st => k st
  | Fatal st => Fatal st
  end.

Notation "o >>= k" := (bind o k) (at level 50, left associativity).

Definition emit (e : Event) (st : RunState) : RunState :=
  mkRunState (created st) (skipped st) (gmaps st) (console st ++ [e]).

Definition state_of (o : Outcome) : RunState :=
  match o with Completed st | Fatal st => st end.

Section Run.

Variable dashboard : Dashboard.
Variable DRY_RUN : bool.
Variable recycling : Recycling.

(** Lines 198-229: one iteration of the submission loop. *)
Definition submit_part (campaign : Campaign) (queries statesArray : list string)
    (totalParts i : nat) (st : RunState) : Outcome :=
  let baseName := campaign_name campaign in
  let partNum := i + 1 in
  let batchName := batch_name baseName totalParts partNum in
  let chunk := chunk_of queries i in
  let payload := payload_of campaign queries statesArray totalParts i in
  let st := emit (HttpPost payload) st in
  match dashboard payload (gmaps st) with
  | None => Fatal st
  | Some (batchId, g) =>
      let st := mkRunState (created st) (skipped st) g (console st) in
      let st :=
        if (1 <? totalParts)%nat
        then emit (SqlUpdate baseName batchId)
               (mkRunState (created st) (skipped st)
                  (update_campaign_name baseName batchId (gmaps st))
                  (console st))
        else st in
      let st := emit (LogCreated batchName batchId (List.length chunk)) st in
      let st :=
        mkRunState (created st + 1) (skipped st) (gmaps st) (console st) in
      Completed
        (if (i <? totalParts - 1)%nat then emit (Delay 1000) st else st)
  end.

(** Line 197: the loop over the part indices. *)
Fixpoint submit_parts (campaign : Campaign) (queries statesArray : list string)
    (totalParts : nat) (indices : list nat) (st : RunState) : Outcome :=
  match indices with
  | [] => Completed st
  | i :: rest =>
      submit_part campaign queries statesArray totalParts i st
      >>= submit_parts campaign queries statesArray totalParts rest
  end.

(** Lines 124-230: the body of the campaign loop. *)
Definition process_campaign (campaign : Campaign) (st : RunState) : Outcome :=
  let st := emit (LogChecking (campaign_name campaign) (id campaign)) st in
  let cnt := count_existing (gmaps st) campaign in
  if (0 <? cnt)%nat then
    let st := emit (LogSkipExisting cnt) st in
    Completed (mkRunState (created st) (skipped st + 1) (gmaps st) (console st))
  else
    let allCities := select_cities recycling (id campaign) in
    if (List.length allCities =? 0)%nat then
      let st := emit LogSkipNoCities st in
      Completed
        (mkRunState (created st) (skipped st + 1) (gmaps st) (console st))
    else
      let st := emit (LogCities allCities) st in
      let built := build_queries allCities in
      let queries := fst built in
      let targetStates := snd built in
      let totalParts := Math_ceil_div (List.length queries) BATCH_SIZE in
      let st := emit (LogPlan (List.length queries) totalParts targetStates) st in
      if DRY_RUN then Completed (emit LogDryRun st)
      else
        submit_parts campaign queries targetStates totalParts
          (seq 0 totalParts) st.

(** Line 123. *)
Fixpoint campaign_loop (campaigns : list Campaign) (st : RunState) : Outcome :=
  match campaigns with
  | [] => Completed st
  | campaign :: rest => process_campaign campaign st >>= campaign_loop rest
  end.

(** Lines 108-233, from a tracker store [g]. *)
Definition run (g : Gmaps) : Outcome :=
  let campaigns := select_campaigns recycling in
  let st := mkRunState 0 0 g [LogFound (List.length campaigns)] in
  campaign_loop campaigns st
  >>= fun st => Completed (emit (LogDone (created st) (skipped st)) st).

End Run.

(** ** Reading a console *)

Definition posted (evs : list Event) : list Payload.t :=
  flat_map (fun e => match e with HttpPost p => [p] | _ => [] end) evs.

Definition updates (evs : list Event) : list (string * BatchId) :=
  flat_map (fun e => match e with SqlUpdate b i => [(b, i)] | _ => [] end) evs.

Definition created_ids (evs : list Event) : list BatchId :=
  flat_map (fun e => match e with LogCreated _ i _ => [i] | _ => [] end) evs.

(** What one accepted submission of part [i] adds to the console. *)
Definition part_events (payload : Payload.t) (baseName : string)
    (totalParts i : nat) (batchId : BatchId) : list Event :=
  [HttpPost payload]
  ++ (if (1 <? totalParts)%nat then [SqlUpdate baseName batchId] else [])
  ++ [LogCreated (Payload.name payload) batchId
        (List.length (Payload.queries payload))]
  ++ (if (i <? totalParts - 1)%nat then [Delay 1000] else []).

(** ** The planner as the specification words it *)

(** "For each target, emit all K categories before moving to the next
    target." *)
Definition cross_product (targets : list City) (catalog : list string)
    : list string :=
  flat_map (fun t => map (fun cat => query cat (location t)) catalog) targets.

(** ** Properties of a resolved target list, as the specification words them *)

(** City names that differ only in letter case do not both appear (for one
    region code). *)
Definition collapses_case (targets : list City) : Prop :=
  forall a b,
    In a targets -> In b targets ->
    Sql.lower (city_name a) = Sql.lower (city_name b) ->
    state_code a = state_code b ->
    a = b.

(** The name contains "county" in some mix of cases. *)
Definition mentions_county (s : string) : Prop :=
  exists pre w suf,
    Sql.lower w = "county" /\ s = (pre ++ w ++ suf)%string.

(** The city rows reachable from a campaign through either table. *)
Definition assigned_city (recycling : Recycling) (cid : Z) (c : Cities.row)
    : Prop :=
  In c (cities recycling)
  /\ (In (Cities.id c) (from_campaign_cities recycling cid)
      \/ In (Cities.id c) (from_client_city_claims recycling cid)).

(** ** The existing-work check, as the specification words it *)

(** The batch is linked to the campaign, carries exactly its name, or has a
    name that starts with it. *)
Definition is_existing_work (c : Campaign) (b : JobsBatch.row) : Prop :=
  JobsBatch.lead_recycling_campaign_id b = Some (id c)
  \/ JobsBatch.campaign_name b = Some (campaign_name c)
  \/ exists suffix, JobsBatch.name b = (campaign_name c ++ suffix)%string.

(** ** The console of a dry run *)

(** What a dry run prints for one campaign against the tracker store [g]:
    the check, then the skip or the cities and the plan. *)
Definition planning_lines (recycling : Recycling) (g : Gmaps) (c : Campaign)
    : list Event :=
  let allCities := select_cities recycling (id c) in
  let total := List.length allCities * List.length CATEGORIES in
  LogChecking (campaign_name c) (id c)
  :: if (0 <? count_existing g c)%nat then [LogSkipExisting (count_existing g c)]
     else if (List.length allCities =? 0)%nat then [LogSkipNoCities]
     else [LogCities allCities;
           LogPlan total ((total + 1999) / 2000) (snd (build_queries allCities));
           LogDryRun].

Definition is_skipped (recycling : Recycling) (g : Gmaps) (c : Campaign) : bool :=
  (0 <? count_existing g c)%nat
  || (List.length (select_cities recycling (id c)) =? 0)%nat.

(** ** The state the correction writes aim at *)

(** Every correction written so far still holds: the batch it named is in
    the tracker store, and every row under that batch id carries the base
    name the correction wrote. *)
Definition corrections_hold (st : RunState) : Prop :=
  Forall
    (fun u =>
       (exists b, In b (gmaps st) /\ JobsBatch.batch_id b = snd u)
       /\ forall b,
            In b (gmaps st) ->
            JobsBatch.batch_id b = snd u ->
            JobsBatch.campaign_name b = Some (fst u))
    (updates (console st)).

(** ** What the run expects of the dashboard *)

(** An accepted request adds exactly one row to the tracker store, under an
    id no earlier row carries, named as requested and linked to the source
    campaign; what the dashboard writes to [campaign_name] is left open. *)
Definition records_batches (dashboard : Dashboard) : Prop :=
  forall p g batchId g',
    dashboard p g = Some (batchId, g') ->
    ~ In batchId (map JobsBatch.batch_id g)
    /\ exists cn,
        g' = g ++ [JobsBatch.mk batchId (Payload.name p) cn
                     (Some (Payload.leadRecyclingCampaignId p))].

(** A dashboard of that kind, used to run the model on concrete stores: ids
    are strings of b's, one longer than the longest id in the store. *)
Fixpoint unary (n : nat) : string :=
  match n with
  | O => EmptyString
  | S k => String "b" (unary k)
  end.

Definition longest_id (g : Gmaps) : nat :=
  fold_right (fun b m => Nat.max (String.length (JobsBatch.batch_id b)) m) 0 g.

Definition fresh_id (g : Gmaps) : BatchId := unary (S (longest_id g)).

Definition recording_dashboard : Dashboard :=
  fun p g =>
    Some (fresh_id g,
          g ++ [JobsBatch.mk (fresh_id g) (Payload.name p)
                  (Some (Payload.name p))
                  (Some (Payload.leadRecyclingCampaignId p))]).

(** A dashboard that is down. *)
Definition unreachable_dashboard : Dashboard := fun _ _ => None.

(** ** Concrete stores *)

Definition texas (names : list string) : list Cities.row :=
  map (fun p => Cities.mk (Z.of_nat (fst p)) (snd p) "TX")
    (combine (seq 1 (List.length names)) names).

Definition assign (campaign : Z) (n : nat) : list CampaignCities.row :=
  map (fun k => CampaignCities.mk campaign (Z.of_nat k)) (seq 1 n).

Definition twenty_cities : list string :=
  ["Abilene"; "Amarillo"; "Arlington"; "Austin"; "Beaumont"; "Brownsville";
   "Corpus Christi"; "Dallas"; "Denton"; "El Paso"; "Fort Worth"; "Frisco";
   "Garland"; "Houston"; "Irving"; "Killeen"; "Laredo"; "Lubbock"; "Midland";
   "Plano"].

(** One campaign over twenty cities: 4220 queries, three parts. *)
Definition acme_large : Recycling :=
  mkRecycling [InstantCampaigns.mk 1 "Acme (GMaps)" true 7]
    (assign 1 20) [] (texas twenty_cities).

(** The same campaign over two cities: 422 queries, one part. *)
Definition acme_small : Recycling :=
  mkRecycling [InstantCampaigns.mk 1 "Acme (GMaps)" true 7]
    (assign 1 2) [] (texas twenty_cities).

(** A campaign with nothing assigned, followed by one with two cities. *)
Definition two_campaigns : Recycling :=
  mkRecycling
    [InstantCampaigns.mk 1 "Empty (GMaps)" true 7;
     InstantCampaigns.mk 2 "Acme (GMaps)" true 8]
    (assign 2 2) [] (texas twenty_cities).

(** Austin assigned to the campaign, Dallas only claimed by its client. *)
Definition both_tables : Recycling :=
  mkRecycling [InstantCampaigns.mk 1 "Acme (GMaps)" true 7]
    [CampaignCities.mk 1 10] [ClientCityClaims.mk 7 11]
    [Cities.mk 10 "Austin" "TX"; Cities.mk 11 "Dallas" "TX"].

(** Two city rows that differ in letter case only, and a county. *)
Definition mixed_case : Recycling :=
  mkRecycling [InstantCampaigns.mk 1 "Acme (GMaps)" true 7]
    [CampaignCities.mk 1 10; CampaignCities.mk 1 11; CampaignCities.mk 1 12;
     CampaignCities.mk 1 13]
    []
    [Cities.mk 10 "Austin" "TX"; Cities.mk 11 "AUSTIN" "TX";
     Cities.mk 12 "Austin" "TX"; Cities.mk 13 "Travis COUNTY" "TX"].

Definition init_state (g : Gmaps) : RunState := mkRunState 0 0 g [].

Definition acme : Campaign := mkCampaign 1 "Acme (GMaps)".

(** A campaign whose name holds the escape character of [LIKE], and a
    two-part order placed for it before the link column existed. *)
Definition backslash_registry : Recycling :=
  mkRecycling [InstantCampaigns.mk 1 "A\B (GMaps)" true 7]
    (assign 1 1) [] (texas twenty_cities).

Definition backslash_campaign : Campaign := mkCampaign 1 "A\B (GMaps)".

Definition legacy_row : JobsBatch.row :=
  JobsBatch.mk "legacy-1" "A\B (GMaps) Part 1" (Some "A\B (GMaps) Part 1") None.

(** A campaign whose name holds a [LIKE] wildcard, and a batch of another
    campaign. *)
Definition wildcard_registry : Recycling :=
  mkRecycling [InstantCampaigns.mk 1 "Acme_West (GMaps)" true 7]
    (assign 1 1) [] (texas twenty_cities).

Definition wildcard_campaign : Campaign := mkCampaign 1 "Acme_West (GMaps)".

Definition foreign_row : JobsBatch.row :=
  JobsBatch.mk "other-1" "Acme West (GMaps)" (Some "Acme West (GMaps)")
    (Some 99%Z).

(** ** Counting console lines *)

Definition plans (evs : list Event) : nat :=
  List.length
    (filter (fun e => match e with LogPlan _ _ _ => true | _ => false end) evs).

Definition delays (evs : list Event) : nat :=
  List.length
    (filter (fun e => match e with Delay _ => true | _ => false end) evs).

Definition checks (evs : list Event) : nat :=
  List.length
    (filter (fun e => match e with LogChecking _ _ => true | _ => false end) evs).

Definition skips (evs : list Event) : nat :=
  List.length
    (filter
       (fun e =>
          match e with
          | LogSkipExisting _ | LogSkipNoCities => true
          | _ => false
          end)
       evs).

(** 1 for a run that died on a rejected request, 0 for one that ended. *)
Definition failed (o : Outcome) : nat :=
  match o with
  | Completed _ => 0
  | Fatal _ => 1
  end.

(** ** What a request of a campaign looks like *)

(** The request carries the campaign id and the import flag, a name that
    starts with the campaign name, between one and [BATCH_SIZE] queries, each
    a catalog category in a resolved city, and the distinct region codes of
    the resolved cities. *)
Definition request_of (recycling : Recycling) (c : Campaign) (p : Payload.t)
    : Prop :=
  Payload.leadRecyclingCampaignId p = id c
  /\ Payload.autoImport p = true
  /\ (exists suffix, Payload.name p = (campaign_name c ++ suffix)%string)
  /\ 0 < List.length (Payload.queries p) <= BATCH_SIZE
  /\ (forall q,
        In q (Payload.queries p) ->
        exists cat city,
          In cat CATEGORIES
          /\ In city (select_cities recycling (id c))
          /\ q = query cat (location city))
  /\ NoDup (Payload.targetStates p)
  /\ (forall s,
        In s (Payload.targetStates p)
        <-> exists city,
              In city (select_cities recycling (id c)) /\ state_code city = s).

(** ** Relations between a state and the outcome reached from it *)

(** From [st] to the outcome [o] the tracker store gained the rows [extra]
    and nothing else changed in it; the created counter counts them. *)
Definition grew_by (Q : JobsBatch.row -> Prop) (st : RunState) (o : Outcome)
    : Prop :=
  exists extra,
    gmaps (state_of o) = gmaps st ++ extra
    /\ created (state_of o) = created st + List.length extra
    /\ Forall Q extra.


(** An accepted request adds one row under a fresh id with the requested
    name; nothing is said of the link or of [campaign_name]. *)
Definition names_batches (dashboard : Dashboard) : Prop :=
  forall p g batchId g',
    dashboard p g = Some (batchId, g') ->
    ~ In batchId (map JobsBatch.batch_id g)
    /\ exists cn link,
        g' = g ++ [JobsBatch.mk batchId (Payload.name p) cn link].

(** A row whose name starts with the name of [c]. *)
Definition named_for (c : Campaign) (b : JobsBatch.row) : Prop :=
  exists suffix, JobsBatch.name b = (campaign_name c ++ suffix)%string.

(** From [st] to the outcome [o] the console gained lines, and every
    request among them satisfies [P]. *)
Definition sends_only (P : Payload.t -> Prop) (st : RunState) (o : Outcome)
    : Prop :=
  exists evs,
    console (state_of o) = console st ++ evs /\ Forall P (posted evs).


(** ** The process around the run (lines 16-20, 89-106, 234-247) *)

Module Config.

(** [process.env]: a variable is unset or holds a string. *)
Record env := mkEnv
  { RECYCLING_DB_URL : option string;
    GMAPS_DB_URL : option string;
    env_DASHBOARD_URL : option string;
    env_DRY_RUN : option string }.

(** JavaScript truthiness of an environment variable: set and not empty. *)
Definition truthy (v : option string) : bool :=
  match v with
  | Some (String _ _) => true
  | _ => false
  end.

(** [v || d]. *)
Definition or_default (v : option string) (d : string) : string :=
  match v with
  | Some (String a r) => String a r
  | _ => d
  end.

(** [s.replace(/\/$/, '')]: drops one slash at the very end. *)
Fixpoint strip_trailing_slash (s : string) : string :=
  match s with
  | EmptyString => EmptyString
  | String a r =>
      match r with
      | EmptyString => if Ascii.eqb a "/" then EmptyString else s
      | String _ _ => String a (strip_trailing_slash r)
      end
  end.

(** Line 18. *)
Definition DASHBOARD_URL (e : env) : string :=
  strip_trailing_slash
    (or_default (env_DASHBOARD_URL e)
       "https://gmaps-dashboard-render.onrender.com").

(** Line 20: [process.env.DRY_RUN === 'true']. *)
Definition DRY_RUN (e : env) : bool :=
  match env_DRY_RUN e with
  | Some s => (s =? "true")%string
  | None => false
  end.

(** Line 210: the address the requests go to. *)
Definition endpoint (e : env) : string :=
  (DASHBOARD_URL e ++ "/api/batches")%string.

End Config.

Module Pool.

Record ssl_options := mkSsl { rejectUnauthorized : bool }.

(** The options [new Pool] receives; [ssl: false] is [None]. *)
Record config := mk
  { connectionString : string;
    ssl : option ssl_options;
    connectionTimeoutMillis : Z }.

End Pool.

(** Lines 89-95; the second argument may be left out and is then [true]. *)
Definition makePool (url : string) (ssl : option bool) : Pool.config :=
  Pool.mk url
    (if match ssl with Some b => b | None => true end
     then Some (Pool.mkSsl false) else None)
    15000%Z.

(** What the process does besides the run: it opens and ends pools and
    writes the fatal line; [None] stands for the message of a failed
    request, which the source takes from the HTTP client. *)
Inductive SysEvent :=
| PoolCreated (cfg : Pool.config)
| Ran (e : Event)
| PoolEnded (cfg : Pool.config)
| FatalLine (message : option string).

Record Process := mkProcess
  { trace : list SysEvent; store : Gmaps; exit_code : nat }.

Section Main.

(** [axios.post(url, ...)]: the service that answers at an address. *)
Variable http_post : string -> Dashboard.
Variable e : Config.env.
Variable recycling : Recycling.

(** Lines 99-247: [run] with its guard and its [finally], then the exit
    code of the entry point. *)
Definition main (g : Gmaps) : Process :=
  if negb (Config.truthy (Config.RECYCLING_DB_URL e))
     || negb (Config.truthy (Config.GMAPS_DB_URL e))
  then
    mkProcess
      [FatalLine
         (Some "Missing required env vars: RECYCLING_DB_URL, GMAPS_DB_URL")]
      g 1
  else
    let recyclingPool :=
      makePool (Config.or_default (Config.RECYCLING_DB_URL e) "") (Some true) in
    let gmapsPool :=
      makePool (Config.or_default (Config.GMAPS_DB_URL e) "") (Some false) in
    let o := run (http_post (Config.endpoint e)) (Config.DRY_RUN e) recycling g in
    let body :=
      [PoolCreated recyclingPool; PoolCreated gmapsPool]
      ++ map Ran (console (state_of o))
      ++ [PoolEnded recyclingPool; PoolEnded gmapsPool] in
    match o with
    | Completed st => mkProcess body (gmaps st) 0
    | Fatal st => mkProcess (body ++ [FatalLine None]) (gmaps st) 1
    end.

End Main.

(** A dashboard that records batches, at every address. *)
Definition recording_service : string -> Dashboard :=
  fun _ => recording_dashboard.

Definition production : Config.env :=
  Config.mkEnv (Some "postgres://recycling") (Some "postgres://gmaps")
    None None.

Definition rehearsal : Config.env :=
  Config.mkEnv (Some "postgres://recycling") (Some "postgres://gmaps")
    (Some "http://localhost:3000/") (Some "true").

(** ** The campaign family, as the source comments word it *)

(** The name contains "(GMaps)" in some mix of cases. *)
Definition mentions_gmaps (s : string) : Prop :=
  exists pre w suf,
    Sql.lower w = "(gmaps)" /\ s = (pre ++ w ++ suf)%string.

(** A dashboard that stores the requested name and nothing else of the
    request. *)
Definition forgetful_dashboard : Dashboard :=
  fun p g =>
    Some (fresh_id g, g ++ [JobsBatch.mk (fresh_id g) (Payload.name p) None None]).

(** * Properties *)

(** ** The planner *)

Lemma fold_push_app (A B : Type) (f : A -> B) (l : list A) (acc : list B) :
  fold_left (fun qs x => qs ++ [f x]) l acc = acc ++ map f l.
Proof.
  revert acc; induction l as [|x l IH]; intros acc; simpl.
  - now rewrite app_nil_r.
  - rewrite IH, <- app_assoc. reflexivity.
Qed.

Lemma push_categories_app loc queries :
  push_categories loc queries
  = queries ++ map (fun cat => query cat loc) CATEGORIES.
Proof. apply fold_push_app. Qed.

Lemma build_queries_from (allCities : list City) (qs ss : list string) :
  fst (fold_left
         (fun acc city =>
            (push_categories (location city) (fst acc),
             set_add (state_code city) (snd acc)))
         allCities (qs, ss))
  = qs ++ cross_product allCities CATEGORIES.
Proof.
  revert qs ss; induction allCities as [|c l IH]; intros qs ss; simpl.
  - now rewrite app_nil_r.
  - rewrite IH, push_categories_app, <- app_assoc. reflexivity.
Qed.

Lemma build_queries_cross_product allCities :
  fst (build_queries allCities) = cross_product allCities CATEGORIES.
Proof. unfold build_queries. now rewrite build_queries_from. Qed.

Lemma cross_product_length targets catalog :
  List.length (cross_product targets catalog)
  = List.length targets * List.length catalog.
Proof.
  induction targets as [|t l IH]; simpl; [reflexivity|].
  unfold cross_product in *; simpl.
  now rewrite length_app, length_map, IH.
Qed.

Lemma cross_product_nth targets catalog i j t cat :
  nth_error targets i = Some t ->
  nth_error catalog j = Some cat ->
  nth_error (cross_product targets catalog) (i * List.length catalog + j)
  = Some (query cat (location t)).
Proof.
  revert i; induction targets as [|t0 l IH]; intros i Ht Hc.
  - destruct i; discriminate.
  - unfold cross_product in *; simpl.
    assert (Hj : j < List.length catalog)
      by (apply nth_error_Some; congruence).
    destruct i as [|i]; simpl in *.
    + injection Ht as ->.
      rewrite nth_error_app1 by now rewrite length_map.
      now rewrite nth_error_map, Hc.
    + rewrite nth_error_app2 by (rewrite length_map; lia).
      rewrite length_map.
      replace (List.length catalog + i * List.length catalog + j
               - List.length catalog)
        with (i * List.length catalog + j) by lia.
      now apply IH.
Qed.

(** [Math.ceil(a / b)] is the least [p] with [a <= b * p]. *)
Lemma Math_ceil_div_bounds a b :
  0 < b ->
  a <= b * Math_ceil_div a b /\ b * Math_ceil_div a b < a + b.
Proof.
  intros Hb. unfold Math_ceil_div, Qround.Qceiling, Qround.Qfloor.
  cbn [QArith_base.Qopp QArith_base.Qnum QArith_base.Qden].
  set (za := Z.of_nat a). set (zb := Z.pos (Pos.of_nat b)).
  assert (Hzb : zb = Z.of_nat b).
  { unfold zb. rewrite <- positive_nat_Z, Nat2Pos.id by lia. reflexivity. }
  assert (Hpos : (0 < zb)%Z) by lia.
  pose proof (Z.div_mod (- za) zb ltac:(lia)) as Hdm.
  pose proof (Z.mod_pos_bound (- za) zb Hpos) as Hm.
  set (q := (- za / zb)%Z) in *.
  set (p := Z.to_nat (- q)).
  assert (Hp : Z.of_nat p = (- q)%Z) by (apply Z2Nat.id; nia).
  assert (Hbp : (Z.of_nat b * Z.of_nat p = - (zb * q))%Z)
    by (rewrite Hp, Hzb; ring).
  split; [apply Nat2Z.inj_le | apply Nat2Z.inj_lt];
    rewrite ?Nat2Z.inj_mul, ?Nat2Z.inj_add; fold za; lia.
Qed.

Lemma Math_ceil_div_eq a b :
  0 < b -> Math_ceil_div a b = (a + b - 1) / b.
Proof.
  intros Hb. destruct (Math_ceil_div_bounds a Hb) as [H1 H2].
  apply Nat.div_unique with (r := a + b - 1 - b * Math_ceil_div a b); lia.
Qed.

Lemma chunk_of_eq queries i :
  chunk_of queries i = firstn BATCH_SIZE (skipn (i * BATCH_SIZE) queries).
Proof.
  unfold chunk_of, slice. f_equal. lia.
Qed.

Lemma chunk_of_length queries i :
  List.length (chunk_of queries i)
  = Nat.min BATCH_SIZE (List.length queries - i * BATCH_SIZE).
Proof. now rewrite chunk_of_eq, length_firstn, length_skipn. Qed.

Lemma chunk_of_skipn (queries : list string) i :
  chunk_of queries (S i) = chunk_of (skipn BATCH_SIZE queries) i.
Proof.
  rewrite !chunk_of_eq, skipn_skipn. do 2 f_equal. lia.
Qed.

Lemma concat_chunks n : forall queries : list string,
  List.length queries <= n * BATCH_SIZE ->
  List.concat (map (chunk_of queries) (seq 0 n)) = queries.
Proof.
  induction n as [|n IH]; intros queries Hlen.
  - destruct queries; [reflexivity | simpl in Hlen; lia].
  - rewrite <- cons_seq, <- seq_shift, map_cons, map_map. 
    rewrite concat_cons.
    rewrite (map_ext _ (chunk_of (skipn BATCH_SIZE queries)))
      by (intros; apply chunk_of_skipn).
    rewrite IH by (rewrite length_skipn; lia).
    rewrite chunk_of_eq. simpl skipn at 1. apply firstn_skipn.
Qed.

Lemma plan_chunks_length queries :
  List.length (plan_chunks queries)
  = Math_ceil_div (List.length queries) BATCH_SIZE.
Proof. unfold plan_chunks. now rewrite length_map, length_seq. Qed.

Lemma plan_chunks_nth queries i :
  i < List.length (plan_chunks queries) ->
  nth i (plan_chunks queries) [] = chunk_of queries i.
Proof.
  intros Hi. pose proof Hi as Hi'. rewrite plan_chunks_length in Hi'.
  rewrite (nth_indep _ [] (chunk_of queries 0) Hi).
  unfold plan_chunks. rewrite map_nth, seq_nth by exact Hi'. reflexivity.
Qed.

(** C2: for a target sequence of size M and the catalog of size K, the
    planner builds the M*K queries of the cross product, all K categories of
    a target before the next target; the submission loop cuts them into
    ceil(M*K / 2000) plans, every plan but possibly the last of exactly 2000
    queries, and the plans concatenated in order are the query list again. *)
Theorem planner_partitions_cross_product (allCities : list City) :
  let queries := fst (build_queries allCities) in
  let M := List.length allCities in
  let K := List.length CATEGORIES in
  let plans := plan_chunks queries in
  K = 211
  /\ queries = cross_product allCities CATEGORIES
  /\ List.length queries = M * K
  /\ (forall i j t cat,
        nth_error allCities i = Some t ->
        nth_error CATEGORIES j = Some cat ->
        nth_error queries (i * K + j) = Some (query cat (location t)))
  /\ List.length plans = (M * K + 1999) / 2000
  /\ M * K <= 2000 * List.length plans < M * K + 2000
  /\ (forall i, S i < List.length plans -> List.length (nth i plans []) = 2000)
  /\ Forall (fun p => 0 < List.length p <= 2000) plans
  /\ List.concat plans = queries.
Proof.
  intros queries M K plans.
  assert (Hq : queries = cross_product allCities CATEGORIES)
    by apply build_queries_cross_product.
  assert (Hlen : List.length queries = M * K)
    by (rewrite Hq; apply cross_product_length).
  assert (HB : 0 < BATCH_SIZE) by (unfold BATCH_SIZE; lia).
  pose proof (Math_ceil_div_bounds (List.length queries) HB) as [Hlo Hhi].
  assert (Hp : List.length plans
               = Math_ceil_div (List.length queries) BATCH_SIZE)
    by apply plan_chunks_length.
  rewrite <- Hp in Hlo, Hhi. change BATCH_SIZE with 2000 in Hlo, Hhi.
  split; [reflexivity|].
  repeat split.
  - exact Hq.
  - exact Hlen.
  - intros i j t cat Ht Hc. rewrite Hq. now apply cross_product_nth.
  - rewrite Hp, Math_ceil_div_eq, Hlen by exact HB.
    unfold BATCH_SIZE. f_equal. lia.
  - lia.
  - lia.
  - intros i Hi. unfold plans. rewrite plan_chunks_nth by (fold plans; lia).
    rewrite chunk_of_length. change BATCH_SIZE with 2000. fold plans in Hi. lia.
  - apply Forall_forall. intros p Hin.
    unfold plans, plan_chunks in Hin. apply in_map_iff in Hin.
    destruct Hin as [i [<- Hi]]. apply in_seq in Hi.
    rewrite <- Hp in Hi.
    rewrite chunk_of_length. change BATCH_SIZE with 2000. lia.
  - unfold plans, plan_chunks. apply concat_chunks.
    rewrite <- Hp. change BATCH_SIZE with 2000. lia.
Qed.

(** ** [LIKE] and [ILIKE] *)

Module SqlFacts.
Import Sql.

Lemma like_percent pat s :
  like (String "%" pat) s
  = like pat s
    || match s with
       | EmptyString => false
       | String _ s' => like (String "%" pat) s'
       end.
Proof. destruct s; reflexivity. Qed.

Lemma like_percent_skip pat pre s :
  like pat s = true -> like (String "%" pat) (pre ++ s) = true.
Proof.
  intros H. induction pre as [|a pre IH].
  - simpl append. rewrite like_percent, H. reflexivity.
  - simpl append. rewrite like_percent, IH. apply orb_true_r.
Qed.

Lemma like_percent_all s : like "%" s = true.
Proof.
  induction s as [|a s IH]; [reflexivity|].
  rewrite like_percent, IH. apply orb_true_r.
Qed.

Lemma like_plain_prefix lit pat s :
  all_plain lit = true ->
  like (lit ++ pat) (lit ++ s) = like pat s.
Proof.
  induction lit as [|a lit IH]; intros Hp; [reflexivity|].
  simpl in Hp. apply andb_true_iff in Hp as [Ha Hl].
  unfold plain in Ha. rewrite !andb_true_iff, !negb_true_iff in Ha.
  destruct Ha as [[H1 H2] H3].
  simpl append. cbn [like]. rewrite H1, H2, H3, Ascii.eqb_refl.
  now apply IH.
Qed.

(** Without a backslash a pattern matches at least its own text: the
    wildcards match themselves. *)
Lemma like_self_prefix lit pat s :
  no_backslash lit = true ->
  like pat s = true ->
  like (lit ++ pat) (lit ++ s) = true.
Proof.
  induction lit as [|a lit IH]; intros Hn Hm; [exact Hm|].
  simpl in Hn. apply andb_true_iff in Hn as [Ha Hl].
  apply negb_true_iff in Ha. specialize (IH Hl Hm).
  simpl append.
  destruct (Ascii.eqb a "%") eqn:E1.
  { apply Ascii.eqb_eq in E1; subst a.
    rewrite like_percent, like_percent, IH.
    apply orb_true_r. }
  cbn [like]. rewrite E1, Ha.
  destruct (Ascii.eqb a "_"); [exact IH|].
  rewrite Ascii.eqb_refl. exact IH.
Qed.

Lemma like_prefix_of_name nm suffix :
  no_backslash nm = true ->
  like (nm ++ "%") (nm ++ suffix) = true.
Proof.
  intros H. apply like_self_prefix; [exact H | apply like_percent_all].
Qed.

Lemma lower_app a b : lower (a ++ b) = (lower a ++ lower b)%string.
Proof. induction a; simpl; congruence. Qed.

(** [ILIKE '%lit%'] finds every occurrence of [lit], whatever its case. *)
Lemma ilike_contains lit pre w suf :
  all_plain (lower lit) = true ->
  lower w = lower lit ->
  ilike ("%" ++ lit ++ "%") (pre ++ w ++ suf) = true.
Proof.
  intros Hp Hw. unfold ilike.
  rewrite !lower_app, Hw.
  change (lower "%") with "%"%string.
  apply (like_percent_skip (lower lit ++ "%") (lower pre)).
  rewrite like_plain_prefix by exact Hp. apply like_percent_all.
Qed.

Lemma in_insert_by A (le : A -> A -> bool) x y l :
  In y (insert_by le x l) <-> y = x \/ In y l.
Proof.
  induction l as [|z l IH]; simpl.
  - intuition congruence.
  - destruct (le x z); simpl; rewrite ?IH; intuition congruence.
Qed.

Lemma in_order_by A (le : A -> A -> bool) y l :
  In y (order_by le l) <-> In y l.
Proof.
  induction l as [|x l IH]; simpl; [reflexivity|].
  rewrite in_insert_by, IH. intuition congruence.
Qed.

Lemma NoDup_insert_by A (le : A -> A -> bool) x l :
  ~ In x l -> NoDup l -> NoDup (insert_by le x l).
Proof.
  induction l as [|z l IH]; simpl; intros Hx Hl.
  - constructor; [tauto | constructor].
  - destruct (le x z).
    + constructor; [simpl; tauto | exact Hl].
    + inversion Hl; subst. constructor.
      * rewrite in_insert_by. intuition congruence.
      * apply IH; tauto.
Qed.

Lemma NoDup_order_by A (le : A -> A -> bool) l :
  NoDup l -> NoDup (order_by le l).
Proof.
  induction l as [|x l IH]; simpl; intros H; [constructor|].
  inversion H; subst.
  apply NoDup_insert_by; [now rewrite in_order_by | now apply IH].
Qed.

End SqlFacts.

(** The converse readings: what a successful match says about the text. *)
Module SqlInversion.
Import Sql.

Lemma like_percent_inv pat s :
  like (String "%" pat) s = true ->
  exists pre rest, s = (pre ++ rest)%string /\ like pat rest = true.
Proof.
  induction s as [|a s IH]; rewrite SqlFacts.like_percent; intros H.
  - rewrite orb_false_r in H. exists EmptyString, EmptyString. now split.
  - apply orb_true_iff in H as [H|H].
    + exists EmptyString, (String a s). now split.
    + destruct (IH H) as (pre & rest & -> & Hm).
      exists (String a pre), rest. now split.
Qed.

Lemma like_plain_inv lit pat s :
  all_plain lit = true ->
  like (lit ++ pat) s = true ->
  exists rest, s = (lit ++ rest)%string /\ like pat rest = true.
Proof.
  revert s. induction lit as [|a lit IH]; intros s Hp Hm.
  - exists s. now split.
  - simpl in Hp. apply andb_true_iff in Hp as [Ha Hl].
    unfold plain in Ha. rewrite !andb_true_iff, !negb_true_iff in Ha.
    destruct Ha as [[H1 H2] H3].
    simpl append in Hm. cbn [like] in Hm. rewrite H1, H2, H3 in Hm.
    destruct s as [|b s]; [discriminate|].
    apply andb_true_iff in Hm as [Hab Hm].
    apply Ascii.eqb_eq in Hab. subst b.
    destruct (IH s Hl Hm) as (rest & -> & Hr).
    exists rest. now split.
Qed.

Lemma lower_app_inv a b : forall s,
  lower s = (a ++ b)%string ->
  exists s1 s2, s = (s1 ++ s2)%string /\ lower s1 = a /\ lower s2 = b.
Proof.
  induction a as [|x a IH]; intros s H.
  - exists EmptyString, s. now repeat split.
  - destruct s as [|y s]; [discriminate|].
    simpl in H. injection H as Hx Hs.
    destruct (IH s Hs) as (s1 & s2 & -> & H1 & H2).
    exists (String y s1), s2. simpl. now rewrite Hx, H1.
Qed.

(** [ILIKE '%lit%'] answers true only when [lit] occurs, in some case. *)
Lemma ilike_contains_inv lit s :
  all_plain (lower lit) = true ->
  ilike ("%" ++ lit ++ "%") s = true ->
  exists pre w suf,
    lower w = lower lit /\ s = (pre ++ w ++ suf)%string.
Proof.
  intros Hp H. unfold ilike in H. rewrite !SqlFacts.lower_app in H.
  change (lower "%") with "%"%string in H.
  apply (like_percent_inv (lower lit ++ "%")) in H.
  destruct H as (pre' & rest & Hs & Hm).
  apply like_plain_inv in Hm; [|exact Hp].
  destruct Hm as (suf' & -> & _).
  apply lower_app_inv in Hs. destruct Hs as (pre & ws & -> & _ & Hws).
  apply lower_app_inv in Hws. destruct Hws as (w & suf & -> & Hw & _).
  exists pre, w, suf. now split.
Qed.

End SqlInversion.

(** ** The submission loop *)

Section Submission.

Variable dashboard : Dashboard.
Variable campaign : Campaign.
Variables queries statesArray : list string.
Variable totalParts : nat.

Let baseName := campaign_name campaign.
Let payload := payload_of campaign queries statesArray totalParts.

Lemma submit_part_rejected i st :
  dashboard (payload i) (gmaps st) = None ->
  submit_part dashboard campaign queries statesArray totalParts i st
  = Fatal (emit (HttpPost (payload i)) st).
Proof.
  intros H. unfold submit_part. cbn [emit gmaps].
  fold (payload i). now rewrite H.
Qed.

Lemma submit_part_accepted i st batchId g :
  dashboard (payload i) (gmaps st) = Some (batchId, g) ->
  submit_part dashboard campaign queries statesArray totalParts i st
  = Completed
      (mkRunState (created st + 1) (skipped st)
         (if (1 <? totalParts)%nat
          then update_campaign_name baseName batchId g else g)
         (console st ++ part_events (payload i) baseName totalParts i batchId)).
Proof.
  intros H. unfold submit_part, part_events. cbn [emit gmaps].
  fold (payload i). rewrite H. fold baseName.
  destruct (1 <? totalParts)%nat, (i <? totalParts - 1)%nat;
    unfold emit; cbn [gmaps created skipped console];
    rewrite <- ?app_assoc; reflexivity.
Qed.

Lemma submit_part_cases i st :
  (dashboard (payload i) (gmaps st) = None
   /\ submit_part dashboard campaign queries statesArray totalParts i st
      = Fatal (emit (HttpPost (payload i)) st))
  \/ exists batchId g,
      dashboard (payload i) (gmaps st) = Some (batchId, g)
      /\ submit_part dashboard campaign queries statesArray totalParts i st
         = Completed
             (mkRunState (created st + 1) (skipped st)
                (if (1 <? totalParts)%nat
                 then update_campaign_name baseName batchId g else g)
                (console st
                 ++ part_events (payload i) baseName totalParts i batchId)).
Proof.
  destruct (dashboard (payload i) (gmaps st)) as [[batchId g]|] eqn:E.
  - right. exists batchId, g. split; [reflexivity|].
    now apply submit_part_accepted.
  - left. split; [reflexivity|]. now apply submit_part_rejected.
Qed.

End Submission.

Lemma posted_app a b : posted (a ++ b) = posted a ++ posted b.
Proof. apply flat_map_app. Qed.

Lemma updates_app a b : updates (a ++ b) = updates a ++ updates b.
Proof. apply flat_map_app. Qed.

Lemma created_ids_app a b : created_ids (a ++ b) = created_ids a ++ created_ids b.
Proof. apply flat_map_app. Qed.

Lemma posted_part_events p baseName totalParts i batchId :
  posted (part_events p baseName totalParts i batchId) = [p].
Proof.
  unfold part_events.
  destruct (1 <? totalParts)%nat, (i <? totalParts - 1)%nat; reflexivity.
Qed.

Lemma created_ids_part_events p baseName totalParts i batchId :
  created_ids (part_events p baseName totalParts i batchId) = [batchId].
Proof.
  unfold part_events.
  destruct (1 <? totalParts)%nat, (i <? totalParts - 1)%nat; reflexivity.
Qed.

Lemma updates_part_events p baseName totalParts i batchId :
  updates (part_events p baseName totalParts i batchId)
  = if (1 <? totalParts)%nat then [(baseName, batchId)] else [].
Proof.
  unfold part_events.
  destruct (1 <? totalParts)%nat, (i <? totalParts - 1)%nat; reflexivity.
Qed.

Lemma update_campaign_name_fresh baseName batchId g :
  ~ In batchId (map JobsBatch.batch_id g) ->
  update_campaign_name baseName batchId g = g.
Proof.
  induction g as [|b g IH]; simpl; intros H; [reflexivity|].
  destruct (String.eqb_spec (JobsBatch.batch_id b) batchId) as [E|E].
  - exfalso. apply H. now left.
  - f_equal. apply IH. tauto.
Qed.

(** What the loop leaves behind when every request is accepted by a
    dashboard that records batches. *)
Lemma submit_parts_completed dashboard campaign queries statesArray totalParts :
  records_batches dashboard ->
  forall indices st st',
    submit_parts dashboard campaign queries statesArray totalParts indices st
    = Completed st' ->
    exists evs extra,
      console st' = console st ++ evs
      /\ gmaps st' = gmaps st ++ extra
      /\ created st' = created st + List.length indices
      /\ skipped st' = skipped st
      /\ posted evs
         = map (payload_of campaign queries statesArray totalParts) indices
      /\ updates evs
         = (if (1 <? totalParts)%nat
            then map (fun i => (campaign_name campaign, i)) (created_ids evs)
            else [])
      /\ map JobsBatch.batch_id extra = created_ids evs
      /\ map JobsBatch.name extra = map Payload.name (posted evs)
      /\ Forall (fun b => JobsBatch.lead_recycling_campaign_id b
                          = Some (id campaign)) extra
      /\ (1 < totalParts ->
          Forall (fun b => JobsBatch.campaign_name b
                           = Some (campaign_name campaign)) extra)
      /\ Forall (fun b => ~ In (JobsBatch.batch_id b)
                            (map JobsBatch.batch_id (gmaps st))) extra.
Proof.
  intros Hd indices.
  induction indices as [|i rest IH]; intros st st' Hrun.
  - injection Hrun as <-. exists [], [].
    rewrite !app_nil_r. simpl.
    destruct (1 <? totalParts)%nat; repeat split; auto; lia.
  - cbn [submit_parts] in Hrun.
    destruct (submit_part_cases dashboard campaign queries statesArray
                totalParts i st)
      as [[_ Hf] | (batchId & g & Hpost & Hc)].
    { rewrite Hf in Hrun. discriminate. }
    rewrite Hc in Hrun. cbn [bind] in Hrun.
    destruct (Hd _ _ _ _ Hpost) as [Hfresh [cn Hg]].
    cbn [Payload.name Payload.leadRecyclingCampaignId payload_of] in Hg.
    set (p := payload_of campaign queries statesArray totalParts i) in *.
    set (row := JobsBatch.mk batchId (Payload.name p)
                  (if (1 <? totalParts)%nat
                   then Some (campaign_name campaign) else cn)
                  (Some (id campaign))).
    assert (Hstore :
      (if (1 <? totalParts)%nat
       then update_campaign_name (campaign_name campaign) batchId g else g)
      = gmaps st ++ [row]).
    { subst g. unfold row. destruct (1 <? totalParts)%nat; [|reflexivity].
      unfold update_campaign_name. rewrite map_app.
      fold (update_campaign_name (campaign_name campaign) batchId (gmaps st)).
      rewrite update_campaign_name_fresh by exact Hfresh.
      simpl. now rewrite String.eqb_refl. }
    rewrite Hstore in Hrun.
    destruct (IH _ _ Hrun)
      as (evs & extra & Hcon & Hgm & Hcr & Hsk & Hpo & Hup & Hids & Hnames
          & Hlink & Hcn & Hnew).
    cbn [console gmaps created skipped] in Hcon, Hgm, Hcr, Hsk, Hnew.
    exists (part_events p (campaign_name campaign) totalParts i batchId ++ evs),
           (row :: extra).
    rewrite posted_app, updates_app, created_ids_app, posted_part_events,
      created_ids_part_events, updates_part_events.
    repeat split.
    + now rewrite Hcon, app_assoc.
    + now rewrite Hgm, <- app_assoc.
    + simpl. lia.
    + exact Hsk.
    + simpl. now rewrite Hpo.
    + rewrite Hup. now destruct (1 <? totalParts)%nat.
    + simpl. now rewrite Hids.
    + simpl. now rewrite Hnames.
    + constructor; [reflexivity | exact Hlink].
    + intros HP. constructor; [|now apply Hcn].
      unfold row. cbn [JobsBatch.campaign_name].
      apply Nat.ltb_lt in HP. now rewrite HP.
    + constructor.
      * exact Hfresh.
      * eapply Forall_impl; [|exact Hnew].
        intros b Hb Hin. apply Hb. rewrite map_app, in_app_iff. now left.
Qed.

(** ** One campaign *)

Section OneCampaign.

Variable dashboard : Dashboard.
Variable DRY_RUN : bool.
Variable recycling : Recycling.
Variable campaign : Campaign.

Let checking := LogChecking (campaign_name campaign) (id campaign).
Let allCities := select_cities recycling (id campaign).
Let queries := fst (build_queries allCities).
Let targetStates := snd (build_queries allCities).
Let totalParts := Math_ceil_div (List.length queries) BATCH_SIZE.

Lemma process_campaign_existing st :
  0 < count_existing (gmaps st) campaign ->
  process_campaign dashboard DRY_RUN recycling campaign st
  = Completed
      (mkRunState (created st) (skipped st + 1) (gmaps st)
         (console st
          ++ [checking; LogSkipExisting (count_existing (gmaps st) campaign)])).
Proof.
  intros H. unfold process_campaign. cbn [emit gmaps].
  apply Nat.ltb_lt in H. rewrite H.
  unfold emit; cbn [created skipped gmaps console].
  now rewrite <- app_assoc.
Qed.

Lemma process_campaign_no_cities st :
  count_existing (gmaps st) campaign = 0 ->
  allCities = [] ->
  process_campaign dashboard DRY_RUN recycling campaign st
  = Completed
      (mkRunState (created st) (skipped st + 1) (gmaps st)
         (console st ++ [checking; LogSkipNoCities])).
Proof.
  intros H0 Hc. unfold process_campaign. cbn [emit gmaps].
  rewrite H0. cbn [Nat.ltb Nat.leb]. fold allCities. rewrite Hc.
  cbn [List.length Nat.eqb].
  unfold emit; cbn [created skipped gmaps console].
  now rewrite <- app_assoc.
Qed.

Lemma process_campaign_planned st :
  count_existing (gmaps st) campaign = 0 ->
  allCities <> [] ->
  process_campaign dashboard DRY_RUN recycling campaign st
  = let planned :=
      mkRunState (created st) (skipped st) (gmaps st)
        (console st
         ++ [checking; LogCities allCities;
             LogPlan (List.length queries) totalParts targetStates]) in
    if DRY_RUN then Completed (emit LogDryRun planned)
    else submit_parts dashboard campaign queries targetStates totalParts
           (seq 0 totalParts) planned.
Proof.
  intros H0 Hc. unfold process_campaign. cbn [emit gmaps].
  rewrite H0. cbn [Nat.ltb Nat.leb]. fold allCities.
  assert (Hl : (List.length allCities =? 0)%nat = false)
    by (destruct allCities; [congruence | reflexivity]).
  rewrite Hl. cbv zeta.
  unfold emit; cbn [created skipped gmaps console].
  rewrite <- !app_assoc. reflexivity.
Qed.

(** At least one city means at least one part: the catalog is not empty. *)
Lemma totalParts_positive : allCities <> [] -> 0 < totalParts.
Proof.
  intros Hc.
  assert (HB : 0 < BATCH_SIZE) by (unfold BATCH_SIZE; lia).
  destruct (Math_ceil_div_bounds (List.length queries) HB) as [Hlo _].
  fold totalParts in Hlo.
  assert (Hq : List.length queries
               = List.length allCities * List.length CATEGORIES).
  { unfold queries.
    now rewrite build_queries_cross_product, cross_product_length. }
  destruct allCities as [|c l]; [congruence|].
  change (List.length CATEGORIES) with 211 in Hq. simpl List.length in Hq.
  destruct totalParts; lia.
Qed.

End OneCampaign.

(** C7: a campaign whose resolved target set is empty gets no batch: no
    request is sent and no correction is written for it, the tracker store is
    untouched, the skipped counter goes up by one and the loop goes on with
    the next campaign. *)
Theorem zero_targets_skipped dashboard DRY_RUN recycling campaign rest st :
  select_cities recycling (id campaign) = [] ->
  exists evs,
    let st' :=
      mkRunState (created st) (skipped st + 1) (gmaps st) (console st ++ evs) in
    process_campaign dashboard DRY_RUN recycling campaign st = Completed st'
    /\ posted evs = [] /\ updates evs = []
    /\ campaign_loop dashboard DRY_RUN recycling (campaign :: rest) st
       = campaign_loop dashboard DRY_RUN recycling rest st'.
Proof.
  intros Hc.
  destruct (Nat.eq_dec (count_existing (gmaps st) campaign) 0) as [H0|H0].
  - eexists. cbv zeta.
    cbn [campaign_loop].
    rewrite (process_campaign_no_cities dashboard DRY_RUN recycling campaign
               st H0 Hc).
    repeat split; reflexivity.
  - eexists. cbv zeta.
    cbn [campaign_loop].
    rewrite (process_campaign_existing dashboard DRY_RUN recycling campaign st)
      by lia.
    repeat split; reflexivity.
Qed.

Lemma zero_targets_skipped_witness :
  select_cities two_campaigns 1 = []
  /\ exists evs,
      let st' := mkRunState 0 1 [] evs in
      process_campaign recording_dashboard false two_campaigns
        (mkCampaign 1 "Empty (GMaps)") (init_state [])
      = Completed st'
      /\ posted evs = [] /\ updates evs = []
      /\ campaign_loop recording_dashboard false two_campaigns
           [mkCampaign 1 "Empty (GMaps)"; mkCampaign 2 "Acme (GMaps)"]
           (init_state [])
         = campaign_loop recording_dashboard false two_campaigns
             [mkCampaign 2 "Acme (GMaps)"] st'.
Proof.
  split; [reflexivity|].
  exact (zero_targets_skipped recording_dashboard false two_campaigns
           (mkCampaign 1 "Empty (GMaps)") [mkCampaign 2 "Acme (GMaps)"]
           (init_state []) eq_refl).
Defined.

(** C5: a campaign that reaches the submission step with at most 2000
    queries sends exactly one request, named by the base campaign name and
    carrying every query; no correction is written, so the tracker store is
    left exactly as the dashboard left it. *)
Theorem single_part_no_correction dashboard recycling campaign st batchId g :
  let allCities := select_cities recycling (id campaign) in
  let queries := fst (build_queries allCities) in
  let targetStates := snd (build_queries allCities) in
  let payload :=
    Payload.mk (campaign_name campaign) queries true targetStates
      (id campaign) in
  count_existing (gmaps st) campaign = 0 ->
  allCities <> [] ->
  List.length queries <= 2000 ->
  dashboard payload (gmaps st) = Some (batchId, g) ->
  exists evs,
    process_campaign dashboard false recycling campaign st
    = Completed
        (mkRunState (created st + 1) (skipped st) g (console st ++ evs))
    /\ posted evs = [payload]
    /\ updates evs = [].
Proof.
  intros allCities queries targetStates payload H0 Hc Hlen Hpost.
  rewrite (process_campaign_planned dashboard false recycling campaign st H0 Hc).
  cbv zeta. fold allCities queries targetStates.
  set (totalParts := Math_ceil_div (List.length queries) BATCH_SIZE).
  assert (HP : totalParts = 1).
  { pose proof (totalParts_positive recycling campaign Hc) as Hpos.
    fold allCities queries totalParts in Hpos.
    assert (HB : 0 < BATCH_SIZE) by (unfold BATCH_SIZE; lia).
    destruct (Math_ceil_div_bounds (List.length queries) HB) as [_ Hhi].
    fold totalParts in Hhi. change BATCH_SIZE with 2000 in Hhi. lia. }
  rewrite HP. cbn [seq submit_parts].
  assert (Hp : payload_of campaign queries targetStates 1 0 = payload).
  { unfold payload_of, payload, batch_name. cbn [Nat.ltb Nat.leb].
    f_equal. rewrite chunk_of_eq. cbn [Nat.mul skipn].
    apply firstn_all2. unfold BATCH_SIZE. exact Hlen. }
  erewrite submit_part_accepted
    by (cbn [gmaps]; rewrite Hp; exact Hpost).
  cbn [bind Nat.ltb Nat.leb created skipped gmaps console].
  rewrite <- app_assoc, Hp. eexists. split; [reflexivity|].
  rewrite posted_app, updates_app, posted_part_events, updates_part_events.
  split; reflexivity.
Qed.

Lemma single_part_no_correction_witness :
  let campaign := mkCampaign 1 "Acme (GMaps)" in
  let built := build_queries (select_cities acme_small 1) in
  let payload := Payload.mk "Acme (GMaps)" (fst built) true (snd built) 1 in
  let row := JobsBatch.mk "b" "Acme (GMaps)" (Some "Acme (GMaps)") (Some 1%Z) in
  count_existing [] campaign = 0
  /\ select_cities acme_small 1 <> []
  /\ List.length (fst built) <= 2000
  /\ recording_dashboard payload [] = Some ("b", [row])
  /\ exists evs,
      process_campaign recording_dashboard false acme_small campaign
        (init_state [])
      = Completed (mkRunState 1 0 [row] evs)
      /\ posted evs = [payload]
      /\ updates evs = [].
Proof.
  cbv zeta.
  assert (H2 : select_cities acme_small 1 <> []) by (vm_compute; discriminate).
  assert (H3 : List.length (fst (build_queries (select_cities acme_small 1)))
               <= 2000)
    by (apply Nat.leb_le; vm_compute; reflexivity).
  repeat split; try assumption; try reflexivity.
  exact (single_part_no_correction recording_dashboard acme_small
           (mkCampaign 1 "Acme (GMaps)") (init_state []) eq_refl H2 H3 eq_refl).
Defined.

Lemma batch_names_of_parts campaign queries statesArray totalParts :
  1 < totalParts ->
  map Payload.name
    (map (payload_of campaign queries statesArray totalParts)
       (seq 0 totalParts))
  = map (fun n => (campaign_name campaign ++ " Part " ++ decimal n)%string)
      (seq 1 totalParts).
Proof.
  intros HP. rewrite map_map, <- seq_shift, map_map.
  apply map_ext. intros i.
  unfold payload_of, batch_name. cbn [Payload.name].
  apply Nat.ltb_lt in HP. rewrite HP. now rewrite Nat.add_1_r.
Qed.

(** C4: a campaign cut into more than one part is submitted under the names
    base + " Part N", N counting from 1 in submission order, one request per
    chunk of the plan; each accepted request is followed by a write that sets
    the stored [campaign_name] of the new batch to the base name, so that
    once the campaign is done every row carrying the id of a created batch
    has the base name there. *)
Theorem multi_part_names_corrected dashboard recycling campaign st st' :
  let queries :=
    fst (build_queries (select_cities recycling (id campaign))) in
  let totalParts := List.length (plan_chunks queries) in
  let baseName := campaign_name campaign in
  records_batches dashboard ->
  count_existing (gmaps st) campaign = 0 ->
  1 < totalParts ->
  process_campaign dashboard false recycling campaign st = Completed st' ->
  exists evs extra,
    console st' = console st ++ evs
    /\ gmaps st' = gmaps st ++ extra
    /\ created st' = created st + totalParts
    /\ map Payload.name (posted evs)
       = map (fun n => (baseName ++ " Part " ++ decimal n)%string)
           (seq 1 totalParts)
    /\ map Payload.queries (posted evs) = plan_chunks queries
    /\ map JobsBatch.batch_id extra = created_ids evs
    /\ List.length extra = totalParts
    /\ updates evs = map (fun i => (baseName, i)) (created_ids evs)
    /\ (forall b,
          In b (gmaps st') ->
          In (JobsBatch.batch_id b) (created_ids evs) ->
          JobsBatch.campaign_name b = Some baseName).
Proof.
  intros queries totalParts baseName Hd H0 HP Hrun.
  unfold totalParts in *. rewrite plan_chunks_length in *.
  clear totalParts.
  set (totalParts := Math_ceil_div (List.length queries) BATCH_SIZE) in *.
  assert (Hc : select_cities recycling (id campaign) <> []).
  { intros E. unfold totalParts, queries in HP. rewrite E in HP.
    vm_compute in HP. lia. }
  rewrite (process_campaign_planned dashboard false recycling campaign st H0 Hc)
    in Hrun.
  cbv zeta in Hrun. fold queries totalParts in Hrun.
  destruct (@submit_parts_completed _ _ _ _ _ Hd _ _ _ Hrun)
    as (evs & extra & Hcon & Hgm & Hcr & Hsk & Hpo & Hup & Hids & Hnames
        & Hlink & Hcn & Hnew).
  cbn [console gmaps created skipped] in Hcon, Hgm, Hcr, Hsk, Hnew.
  rewrite length_seq in Hcr.
  pose proof HP as HP'. apply Nat.ltb_lt in HP'. rewrite HP' in Hup.
  match type of Hcon with
  | _ = (_ ++ ?pre) ++ _ => exists (pre ++ evs), extra
  end.
  rewrite posted_app, updates_app, created_ids_app.
  cbn [posted updates created_ids flat_map app].
  repeat split.
  - rewrite Hcon, <- app_assoc. reflexivity.
  - exact Hgm.
  - exact Hcr.
  - rewrite Hpo. now apply batch_names_of_parts.
  - rewrite Hpo, map_map. reflexivity.
  - exact Hids.
  - apply (f_equal (@List.length _)) in Hnames. rewrite Hpo in Hnames.
    rewrite !length_map, length_seq in Hnames. exact Hnames.
  - exact Hup.
  - intros b Hb Hid. rewrite Hgm in Hb. apply in_app_or in Hb as [Hb|Hb].
    + exfalso. rewrite <- Hids in Hid. apply in_map_iff in Hid.
      destruct Hid as (b' & Heq & Hb').
      rewrite Forall_forall in Hnew. apply (Hnew b' Hb').
      rewrite Heq. now apply in_map.
    + specialize (Hcn HP). rewrite Forall_forall in Hcn. now apply Hcn.
Qed.

(** ** Completion *)

(** A dashboard that answers every request. *)
Lemma submit_parts_total dashboard campaign queries statesArray totalParts :
  (forall p g, dashboard p g <> None) ->
  forall indices st,
    exists st',
      submit_parts dashboard campaign queries statesArray totalParts indices st
      = Completed st'.
Proof.
  intros Hd indices. induction indices as [|i rest IH]; intros st.
  - exists st. reflexivity.
  - cbn [submit_parts].
    destruct (submit_part_cases dashboard campaign queries statesArray
                totalParts i st)
      as [[Hnone _] | (batchId & g & _ & Hc)].
    + now apply Hd in Hnone.
    + rewrite Hc. cbn [bind]. apply IH.
Qed.

Lemma process_campaign_total dashboard DRY_RUN recycling campaign st :
  (forall p g, dashboard p g <> None) ->
  exists st',
    process_campaign dashboard DRY_RUN recycling campaign st = Completed st'.
Proof.
  intros Hd.
  destruct (Nat.eq_dec (count_existing (gmaps st) campaign) 0) as [H0|H0].
  - destruct (select_cities recycling (id campaign)) as [|city l] eqn:Hc.
    + eexists.
      apply (process_campaign_no_cities dashboard DRY_RUN recycling campaign
               st H0 Hc).
    + assert (Hne : select_cities recycling (id campaign) <> [])
        by congruence.
      rewrite (process_campaign_planned dashboard DRY_RUN recycling campaign
                 st H0 Hne).
      cbv zeta. destruct DRY_RUN; [eexists; reflexivity|].
      now apply submit_parts_total.
  - eexists.
    apply (process_campaign_existing dashboard DRY_RUN recycling campaign st).
    lia.
Qed.

Lemma campaign_loop_total dashboard DRY_RUN recycling campaigns :
  (forall p g, dashboard p g <> None) ->
  forall st,
    exists st',
      campaign_loop dashboard DRY_RUN recycling campaigns st = Completed st'.
Proof.
  intros Hd. induction campaigns as [|c rest IH]; intros st.
  - exists st. reflexivity.
  - cbn [campaign_loop].
    destruct (@process_campaign_total dashboard DRY_RUN recycling c st Hd)
      as [st1 H1].
    rewrite H1. cbn [bind]. apply IH.
Qed.


Lemma completed_state_of (o : Outcome) :
  (exists st, o = Completed st) -> o = Completed (state_of o).
Proof. intros [st ->]. reflexivity. Qed.

Lemma recording_dashboard_answers p g : recording_dashboard p g <> None.
Proof. discriminate. Qed.


(** The reference dashboard keeps the contract. *)
Lemma unary_length n : String.length (unary n) = n.
Proof. induction n; simpl; congruence. Qed.

Lemma longest_id_bound g b :
  In b g -> String.length (JobsBatch.batch_id b) <= longest_id g.
Proof.
  induction g as [|x g IH]; simpl; intros H; [contradiction|].
  destruct H as [->|H]; [lia | specialize (IH H); lia].
Qed.

Lemma fresh_id_fresh g : ~ In (fresh_id g) (map JobsBatch.batch_id g).
Proof.
  intros H. apply in_map_iff in H. destruct H as (b & Heq & Hb).
  apply longest_id_bound in Hb. rewrite Heq in Hb.
  unfold fresh_id in Hb. rewrite unary_length in Hb. lia.
Qed.

Lemma recording_dashboard_records : records_batches recording_dashboard.
Proof.
  intros p g batchId g' H. unfold recording_dashboard in H.
  injection H as <- <-. split; [apply fresh_id_fresh|].
  eexists. reflexivity.
Qed.

Lemma multi_part_names_corrected_witness :
  let st := init_state [] in
  let st' :=
    state_of (process_campaign recording_dashboard false acme_large acme st) in
  let queries := fst (build_queries (select_cities acme_large (id acme))) in
  let totalParts := List.length (plan_chunks queries) in
  let baseName := campaign_name acme in
  records_batches recording_dashboard
  /\ count_existing (gmaps st) acme = 0
  /\ 1 < totalParts
  /\ process_campaign recording_dashboard false acme_large acme st
     = Completed st'
  /\ exists evs extra,
      console st' = console st ++ evs
      /\ gmaps st' = gmaps st ++ extra
      /\ created st' = created st + totalParts
      /\ map Payload.name (posted evs)
         = map (fun n => (baseName ++ " Part " ++ decimal n)%string)
             (seq 1 totalParts)
      /\ map Payload.queries (posted evs) = plan_chunks queries
      /\ map JobsBatch.batch_id extra = created_ids evs
      /\ List.length extra = totalParts
      /\ updates evs = map (fun i => (baseName, i)) (created_ids evs)
      /\ (forall b,
            In b (gmaps st') ->
            In (JobsBatch.batch_id b) (created_ids evs) ->
            JobsBatch.campaign_name b = Some baseName).
Proof.
  cbv zeta.
  assert (H3 : 1 < List.length
                     (plan_chunks
                        (fst (build_queries (select_cities acme_large (id acme)))))).
  { rewrite plan_chunks_length, build_queries_cross_product,
      cross_product_length, Math_ceil_div_eq by (unfold BATCH_SIZE; lia).
    apply Nat.ltb_lt. vm_compute. reflexivity. }
  assert (H4 : process_campaign recording_dashboard false acme_large acme
                 (init_state [])
               = Completed
                   (state_of (process_campaign recording_dashboard false
                                acme_large acme (init_state [])))).
  { apply completed_state_of, process_campaign_total.
    exact recording_dashboard_answers. }
  split; [exact recording_dashboard_records|].
  split; [reflexivity|].
  split; [exact H3|].
  split; [exact H4|].
  exact (@multi_part_names_corrected recording_dashboard acme_large acme
           (init_state []) _ recording_dashboard_records eq_refl H3 H4).
Defined.

(** ** Target resolution *)

(** The city query returns the cities of both tables, counties left out. *)
Lemma select_cities_spec recycling cid city :
  In city (select_cities recycling cid)
  <-> exists c,
        assigned_city recycling cid c
        /\ Sql.ilike "%county%" (Cities.city_name c) = false
        /\ city = mkCity (Cities.city_name c) (Cities.state_code c).
Proof.
  unfold select_cities, assigned_city, combined.
  rewrite SqlFacts.in_order_by, nodup_In, in_flat_map.
  split.
  - intros (city_id & Hid & Hin).
    apply nodup_In in Hid. apply in_map_iff in Hin.
    destruct Hin as (c & Heq & Hc). apply filter_In in Hc.
    destruct Hc as [Hc Hf]. apply andb_true_iff in Hf as [Hk Hn].
    apply Z.eqb_eq in Hk. apply negb_true_iff in Hn.
    exists c. rewrite Hk. apply in_app_or in Hid.
    repeat split; auto.
  - intros (c & [Hc Hid] & Hn & ->).
    exists (Cities.id c). split.
    + apply nodup_In, in_or_app. exact Hid.
    + apply in_map_iff. exists c. split; [reflexivity|].
      apply filter_In. split; [exact Hc|].
      rewrite Z.eqb_refl, Hn. reflexivity.
Qed.

Lemma ilike_county_iff s :
  Sql.ilike "%county%" s = true <-> mentions_county s.
Proof.
  split.
  - intros H. apply (SqlInversion.ilike_contains_inv "county" s eq_refl) in H.
    exact H.
  - intros (pre & w & suf & Hw & ->).
    apply (SqlFacts.ilike_contains "county" pre w suf eq_refl Hw).
Qed.

(** C8 (as amended): the resolved target list holds each (city name, region
    code) pair once, compared exactly, and it holds the pair of a city row
    assigned to the campaign, through either table, exactly when the city
    name does not contain "county" in any mix of cases. *)
Theorem select_cities_distinct_no_county recycling cid :
  NoDup (select_cities recycling cid)
  /\ Forall (fun city => ~ mentions_county (city_name city))
       (select_cities recycling cid)
  /\ (forall city,
        In city (select_cities recycling cid)
        <-> exists c,
              assigned_city recycling cid c
              /\ ~ mentions_county (Cities.city_name c)
              /\ city = mkCity (Cities.city_name c) (Cities.state_code c)).
Proof.
  assert (Hiff : forall city,
    In city (select_cities recycling cid)
    <-> exists c,
          assigned_city recycling cid c
          /\ ~ mentions_county (Cities.city_name c)
          /\ city = mkCity (Cities.city_name c) (Cities.state_code c)).
  { intros city. rewrite select_cities_spec.
    split; intros (c & Ha & Hn & Hc); exists c;
      (split; [exact Ha | split; [|exact Hc]]).
    - intros Hm. apply ilike_county_iff in Hm. congruence.
    - destruct (Sql.ilike "%county%" (Cities.city_name c)) eqn:E;
        [|reflexivity].
      exfalso. apply Hn, ilike_county_iff, E. }
  split; [|split; [|exact Hiff]].
  - unfold select_cities. apply SqlFacts.NoDup_order_by, NoDup_nodup.
  - apply Forall_forall. intros city Hin.
    apply Hiff in Hin. destruct Hin as (c & _ & Hn & ->). exact Hn.
Qed.

(** C8, as stated, fails: "Austin" and "AUSTIN" stay two entries. *)
Lemma select_cities_keeps_case_variants :
  ~ collapses_case (select_cities mixed_case 1).
Proof.
  intros H.
  specialize (H (mkCity "Austin" "TX") (mkCity "AUSTIN" "TX")).
  assert (E : mkCity "Austin" "TX" = mkCity "AUSTIN" "TX").
  { apply H; [vm_compute; tauto | vm_compute; tauto | reflexivity | reflexivity]. }
  discriminate E.
Qed.

(** C1: with one city in [campaign_cities] and another only in
    [client_city_claims], the city query returns both. *)
Theorem select_cities_merges_legacy_claims :
  from_campaign_cities both_tables 1 = [10%Z]
  /\ from_client_city_claims both_tables 1 = [11%Z]
  /\ select_cities both_tables 1 = [mkCity "Austin" "TX"; mkCity "Dallas" "TX"].
Proof. repeat split; reflexivity. Qed.

(** ** The existing-work check *)

Lemma count_existing_app g e c :
  count_existing (g ++ e) c = count_existing g c + count_existing e c.
Proof. unfold count_existing. now rewrite filter_app, length_app. Qed.

Lemma count_existing_pos g c :
  0 < count_existing g c <-> exists b, In b g /\ batch_matches c b = true.
Proof.
  unfold count_existing. split.
  - intros H. destruct (filter (batch_matches c) g) as [|b l] eqn:E.
    + simpl in H. lia.
    + exists b. apply filter_In. rewrite E. now left.
  - intros (b & Hb & Hm).
    assert (Hin : In b (filter (batch_matches c) g)) by now apply filter_In.
    destruct (filter (batch_matches c) g); [contradiction | simpl; lia].
Qed.

Lemma linked_batch_matches c b :
  JobsBatch.lead_recycling_campaign_id b = Some (id c) ->
  batch_matches c b = true.
Proof.
  intros H. unfold batch_matches. rewrite H. cbn [Sql.null_eq].
  now rewrite Z.eqb_refl.
Qed.

(** The three-way match finds every batch the specification calls existing
    work, provided the campaign name holds no backslash. *)
Lemma existing_work_matches c b :
  Sql.no_backslash (campaign_name c) = true ->
  is_existing_work c b ->
  batch_matches c b = true.
Proof.
  intros Hn [H | [H | (suffix & H)]]; unfold batch_matches.
  - rewrite H. cbn [Sql.null_eq]. now rewrite Z.eqb_refl.
  - rewrite H. cbn [Sql.null_eq]. rewrite String.eqb_refl.
    apply orb_true_iff. left. apply orb_true_r.
  - rewrite H, SqlFacts.like_prefix_of_name by exact Hn. apply orb_true_r.
Qed.

(** C3, on the failing input: the tracker store holds a batch whose name
    starts with the campaign name, the check counts nothing, and the run
    orders the campaign again. *)
Theorem prefix_batch_missed_with_backslash :
  select_campaigns backslash_registry = [backslash_campaign]
  /\ JobsBatch.name legacy_row
     = (campaign_name backslash_campaign ++ " Part 1")%string
  /\ count_existing [legacy_row] backslash_campaign = 0
  /\ exists st,
      run recording_dashboard false backslash_registry [legacy_row]
      = Completed st
      /\ created st = 1
      /\ skipped st = 0
      /\ map JobsBatch.name (gmaps st) = ["A\B (GMaps) Part 1"; "A\B (GMaps)"].
Proof.
  repeat split; try reflexivity.
  eexists. split; [vm_compute; reflexivity|].
  repeat split; reflexivity.
Qed.

(** C10: the campaign name is the [LIKE] pattern as it stands, so a name
    with a wildcard in it can match a batch whose name does not start with
    the campaign name; that batch counts as existing work and the campaign
    is skipped. *)
Theorem like_wildcard_counts_foreign_batch :
  exists recycling campaign b st,
    select_campaigns recycling = [campaign]
    /\ (exists pre suf, campaign_name campaign = (pre ++ "_" ++ suf)%string)
    /\ (forall suffix,
          JobsBatch.name b <> (campaign_name campaign ++ suffix)%string)
    /\ JobsBatch.lead_recycling_campaign_id b <> Some (id campaign)
    /\ JobsBatch.campaign_name b <> Some (campaign_name campaign)
    /\ Sql.like (campaign_name campaign ++ "%") (JobsBatch.name b) = true
    /\ count_existing [b] campaign = 1
    /\ select_cities recycling (id campaign) <> []
    /\ run recording_dashboard false recycling [b] = Completed st
    /\ created st = 0
    /\ skipped st = 1
    /\ gmaps st = [b].
Proof.
  exists wildcard_registry, wildcard_campaign, foreign_row.
  eexists. 
  split; [reflexivity|].
  split; [exists "Acme", "West (GMaps)"; reflexivity|].
  split; [intros suffix H; simpl in H; discriminate H|].
  split; [discriminate|].
  split; [discriminate|].
  split; [reflexivity|].
  split; [reflexivity|].
  split; [vm_compute; discriminate|].
  split; [vm_compute; reflexivity|].
  repeat split; reflexivity.
Qed.

(** ** The campaign loop *)

Lemma run_completed dashboard DRY_RUN recycling g st :
  run dashboard DRY_RUN recycling g = Completed st ->
  exists st0,
    campaign_loop dashboard DRY_RUN recycling (select_campaigns recycling)
      (mkRunState 0 0 g [LogFound (List.length (select_campaigns recycling))])
    = Completed st0
    /\ st = emit (LogDone (created st0) (skipped st0)) st0.
Proof.
  unfold run. cbv zeta.
  destruct (campaign_loop _ _ _ _ _) as [st0|st0]; cbn [bind]; intros H.
  - exists st0. split; [reflexivity|]. now injection H.
  - discriminate.
Qed.

(** A dry run of the loop: nothing but console lines. *)
Lemma campaign_loop_dry dashboard recycling campaigns :
  forall st,
    campaign_loop dashboard true recycling campaigns st
    = Completed
        (mkRunState (created st)
           (skipped st
            + List.length (filter (is_skipped recycling (gmaps st)) campaigns))
           (gmaps st)
           (console st ++ flat_map (planning_lines recycling (gmaps st)) campaigns)).
Proof.
  induction campaigns as [|c rest IH]; intros st.
  - simpl. rewrite Nat.add_0_r, app_nil_r. now destruct st.
  - cbn [campaign_loop flat_map filter].
    unfold planning_lines at 1, is_skipped at 1.
    destruct (Nat.eq_dec (count_existing (gmaps st) c) 0) as [H0|H0].
    + rewrite H0. cbn [Nat.ltb Nat.leb orb].
      destruct (select_cities recycling (id c)) as [|city l] eqn:Hc.
      * rewrite (process_campaign_no_cities dashboard true recycling c st H0 Hc).
        cbn [bind]. rewrite IH. cbn [created skipped gmaps console].
        cbn [List.length Nat.eqb]. cbn [List.length].
        rewrite <- !app_assoc. f_equal. f_equal. lia.
      * assert (Hne : select_cities recycling (id c) <> []) by congruence.
        rewrite (process_campaign_planned dashboard true recycling c st H0 Hne).
        cbv zeta. cbn [bind]. rewrite IH.
        unfold emit; cbn [created skipped gmaps console].
        rewrite Hc. cbn [List.length Nat.eqb].
        rewrite <- !app_assoc. cbn [app].
        rewrite build_queries_cross_product, cross_product_length.
        rewrite Math_ceil_div_eq by (unfold BATCH_SIZE; lia).
        change BATCH_SIZE with 2000. cbn [List.length].
        replace (S (List.length l) * List.length CATEGORIES + 2000 - 1)
          with (S (List.length l) * List.length CATEGORIES + 1999) by lia.
        reflexivity.
    + assert (Hpos : 0 < count_existing (gmaps st) c) by lia.
      rewrite (process_campaign_existing dashboard true recycling c st Hpos).
      cbn [bind]. rewrite IH. cbn [created skipped gmaps console].
      apply Nat.ltb_lt in Hpos. rewrite Hpos. cbn [orb List.length].
      rewrite <- !app_assoc. f_equal. f_equal. lia.
Qed.

Lemma posted_planning_lines recycling g campaigns :
  posted (flat_map (planning_lines recycling g) campaigns) = []
  /\ updates (flat_map (planning_lines recycling g) campaigns) = [].
Proof.
  induction campaigns as [|c rest [IH1 IH2]]; [split; reflexivity|].
  cbn [flat_map]. rewrite posted_app, updates_app, IH1, IH2, !app_nil_r.
  unfold planning_lines.
  destruct (0 <? count_existing g c)%nat; [split; reflexivity|].
  destruct (List.length (select_cities recycling (id c)) =? 0)%nat;
    split; reflexivity.
Qed.

(** C9: in dry-run mode the run completes whatever the dashboard would
    answer; for every campaign it still checks for existing work, resolves
    the targets, expands the queries and counts the parts, as its console
    shows; it sends no request and writes no correction, the tracker store is
    the one it started from and the created counter ends at zero. *)
Theorem dry_run_plans_without_effects dashboard recycling g :
  let campaigns := select_campaigns recycling in
  exists st,
    run dashboard true recycling g = Completed st
    /\ created st = 0
    /\ skipped st = List.length (filter (is_skipped recycling g) campaigns)
    /\ gmaps st = g
    /\ posted (console st) = []
    /\ updates (console st) = []
    /\ console st
       = [LogFound (List.length campaigns)]
         ++ flat_map (planning_lines recycling g) campaigns
         ++ [LogDone 0 (skipped st)].
Proof.
  intros campaigns. unfold run. fold campaigns. cbv zeta.
  rewrite campaign_loop_dry. cbn [bind created skipped gmaps console].
  eexists. split; [reflexivity|].
  unfold emit; cbn [created skipped gmaps console].
  destruct (posted_planning_lines recycling g campaigns) as [Hp Hu].
  split; [reflexivity|].
  split; [reflexivity|].
  split; [reflexivity|].
  split; [rewrite !posted_app, Hp; reflexivity|].
  split; [rewrite !updates_app, Hu; reflexivity|].
  now rewrite <- app_assoc.
Qed.

Lemma is_skipped_app recycling g extra c :
  is_skipped recycling g c = true ->
  is_skipped recycling (g ++ extra) c = true.
Proof.
  unfold is_skipped. rewrite !orb_true_iff, !Nat.ltb_lt, count_existing_app.
  intros [H|H]; [left; lia | now right].
Qed.

(** A loop over campaigns that are all skipped, or a dry one, changes
    neither the tracker store nor the created counter. *)
Lemma campaign_loop_quiet dashboard DRY_RUN recycling campaigns :
  forall st,
    DRY_RUN = true
    \/ Forall (fun c => is_skipped recycling (gmaps st) c = true) campaigns ->
    exists st' evs,
      campaign_loop dashboard DRY_RUN recycling campaigns st = Completed st'
      /\ created st' = created st
      /\ gmaps st' = gmaps st
      /\ console st' = console st ++ evs
      /\ posted evs = []
      /\ updates evs = [].
Proof.
  intros st [-> | Hall].
  - rewrite campaign_loop_dry.
    destruct (posted_planning_lines recycling (gmaps st) campaigns) as [Hp Hu].
    do 2 eexists. split; [reflexivity|]. cbn [created gmaps console].
    repeat split; assumption.
  - revert st Hall. induction campaigns as [|c rest IH]; intros st Hall.
    + exists st, []. rewrite app_nil_r. repeat split; reflexivity.
    + inversion Hall as [|? ? Hc Hrest]; subst.
      assert (Hstep : exists evs,
        process_campaign dashboard DRY_RUN recycling c st
        = Completed (mkRunState (created st) (skipped st + 1) (gmaps st)
                       (console st ++ evs))
        /\ posted evs = [] /\ updates evs = []).
      { unfold is_skipped in Hc.
        destruct (Nat.eq_dec (count_existing (gmaps st) c) 0) as [H0|H0].
        - rewrite H0 in Hc. cbn [Nat.ltb Nat.leb orb] in Hc.
          apply Nat.eqb_eq in Hc.
          assert (Hnil : select_cities recycling (id c) = [])
            by (destruct (select_cities recycling (id c));
                [reflexivity | discriminate]).
          eexists. 
          rewrite (process_campaign_no_cities dashboard DRY_RUN recycling c
                     st H0 Hnil).
          repeat split; reflexivity.
        - eexists.
          rewrite (process_campaign_existing dashboard DRY_RUN recycling c st)
            by lia.
          repeat split; reflexivity. }
      destruct Hstep as (evs & Hp & Hpo & Hup).
      cbn [campaign_loop]. rewrite Hp. cbn [bind].
      destruct (IH (mkRunState (created st) (skipped st + 1) (gmaps st)
                      (console st ++ evs)) Hrest)
        as (st' & evs' & Hl & Hcr & Hg & Hcon & Hpo' & Hup').
      cbn [created gmaps console] in Hcr, Hg, Hcon.
      exists st', (evs ++ evs').
      rewrite posted_app, updates_app, Hpo, Hup, Hpo', Hup'.
      repeat split; try assumption.
      now rewrite Hcon, app_assoc.
Qed.

(** What one campaign of a completed, effective run leaves in the tracker
    store: the old rows, then the rows of its own new batches; afterwards
    the campaign is one the check skips. *)
Lemma process_campaign_extends dashboard recycling c st st' :
  records_batches dashboard ->
  process_campaign dashboard false recycling c st = Completed st' ->
  exists extra,
    gmaps st' = gmaps st ++ extra
    /\ Forall (fun b => JobsBatch.lead_recycling_campaign_id b = Some (id c))
         extra
    /\ is_skipped recycling (gmaps st') c = true.
Proof.
  intros Hd Hrun.
  destruct (Nat.eq_dec (count_existing (gmaps st) c) 0) as [H0|H0].
  - destruct (select_cities recycling (id c)) as [|city l] eqn:Hc.
    + rewrite (process_campaign_no_cities dashboard false recycling c st H0 Hc)
        in Hrun.
      injection Hrun as <-. exists []. cbn [gmaps].
      rewrite app_nil_r. repeat split; [constructor|].
      unfold is_skipped. rewrite Hc. apply orb_true_r.
    + assert (Hne : select_cities recycling (id c) <> []) by congruence.
      rewrite (process_campaign_planned dashboard false recycling c st H0 Hne)
        in Hrun.
      cbv zeta in Hrun.
      pose proof (totalParts_positive recycling c Hne) as Hpos.
      destruct (@submit_parts_completed _ _ _ _ _ Hd _ _ _ Hrun)
        as (evs & extra & _ & Hgm & _ & _ & Hpo & _ & _ & Hnames
            & Hlink & _ & _).
      cbn [gmaps] in Hgm.
      exists extra. repeat split; [exact Hgm | exact Hlink |].
      apply (f_equal (@List.length _)) in Hnames. rewrite Hpo in Hnames.
      rewrite !length_map, length_seq in Hnames.
      destruct extra as [|b extra]; [simpl in Hnames; lia|].
      inversion Hlink as [|? ? Hb _]; subst.
      unfold is_skipped. apply orb_true_iff. left. apply Nat.ltb_lt.
      rewrite Hgm. apply count_existing_pos. exists b. split.
      * apply in_or_app. right. now left.
      * now apply linked_batch_matches.
  - rewrite (process_campaign_existing dashboard false recycling c st) in Hrun
      by lia.
    injection Hrun as <-. exists []. cbn [gmaps].
    rewrite app_nil_r. repeat split; [constructor|].
    unfold is_skipped. apply orb_true_iff. left. apply Nat.ltb_lt. lia.
Qed.

Lemma campaign_loop_extends dashboard recycling campaigns :
  records_batches dashboard ->
  forall st st',
    campaign_loop dashboard false recycling campaigns st = Completed st' ->
    exists extra,
      gmaps st' = gmaps st ++ extra
      /\ Forall (fun b => exists c,
                   In c campaigns
                   /\ JobsBatch.lead_recycling_campaign_id b = Some (id c))
           extra
      /\ Forall (fun c => is_skipped recycling (gmaps st') c = true) campaigns.
Proof.
  intros Hd. induction campaigns as [|c rest IH]; intros st st' Hrun.
  - injection Hrun as <-. exists []. rewrite app_nil_r.
    repeat split; constructor.
  - cbn [campaign_loop] in Hrun.
    destruct (process_campaign dashboard false recycling c st) as [st1|st1]
      eqn:Hp; cbn [bind] in Hrun; [|discriminate].
    destruct (process_campaign_extends recycling c st Hd Hp)
      as (e1 & Hg1 & Hl1 & Hs1).
    destruct (IH _ _ Hrun) as (e2 & Hg2 & Hl2 & Hs2).
    exists (e1 ++ e2). repeat split.
    + now rewrite Hg2, Hg1, app_assoc.
    + apply Forall_app. split.
      * eapply Forall_impl; [|exact Hl1]. intros b Hb.
        exists c. split; [now left | exact Hb].
      * eapply Forall_impl; [|exact Hl2]. intros b (c' & Hin & Hb).
        exists c'. split; [now right | exact Hb].
    + constructor; [|exact Hs2].
      rewrite Hg2. now apply is_skipped_app.
Qed.

(** C6: after a completed run, a second run from the tracker store the first
    one left completes without sending a request or writing to the store,
    and its created counter is zero: by then every selected campaign has
    existing work or no targets, and every row the first run added is linked
    to a selected campaign and matches that campaign's check. *)
Theorem rerun_creates_nothing dashboard DRY_RUN recycling g st1 :
  records_batches dashboard ->
  run dashboard DRY_RUN recycling g = Completed st1 ->
  exists st2 extra,
    run dashboard DRY_RUN recycling (gmaps st1) = Completed st2
    /\ created st2 = 0
    /\ gmaps st2 = gmaps st1
    /\ posted (console st2) = []
    /\ updates (console st2) = []
    /\ gmaps st1 = g ++ extra
    /\ Forall (fun b => exists c,
                 In c (select_campaigns recycling)
                 /\ batch_matches c b = true) extra
    /\ (DRY_RUN = false ->
        Forall (fun c => 0 < count_existing (gmaps st1) c
                         \/ select_cities recycling (id c) = [])
          (select_campaigns recycling)).
Proof.
  intros Hd Hrun.
  destruct (run_completed _ _ _ _ Hrun) as (st0 & Hloop & ->).
  cbn [emit gmaps].
  assert (Hfirst : exists extra,
    gmaps st0 = g ++ extra
    /\ Forall (fun b => exists c,
                 In c (select_campaigns recycling)
                 /\ batch_matches c b = true) extra
    /\ (DRY_RUN = true
        \/ Forall (fun c => is_skipped recycling (gmaps st0) c = true)
             (select_campaigns recycling))).
  { destruct DRY_RUN.
    - rewrite campaign_loop_dry in Hloop. injection Hloop as <-.
      exists []. cbn [gmaps]. rewrite app_nil_r.
      repeat split; [constructor | now left].
    - destruct (campaign_loop_extends recycling _ Hd _ Hloop)
        as (extra & Hg & Hl & Hs).
      exists extra. cbn [gmaps] in Hg. repeat split; [exact Hg | | now right].
      eapply Forall_impl; [|exact Hl]. intros b (c & Hin & Hb).
      exists c. split; [exact Hin | now apply linked_batch_matches]. }
  destruct Hfirst as (extra & Hg & Hmatch & Hquiet).
  set (start := mkRunState 0 0 (gmaps st0)
                  [LogFound (List.length (select_campaigns recycling))]).
  destruct (@campaign_loop_quiet dashboard DRY_RUN recycling
              (select_campaigns recycling) start Hquiet)
    as (st' & evs & Hl & Hcr & Hgm & Hcon & Hpo & Hup).
  exists (emit (LogDone (created st') (skipped st')) st'), extra.
  split; [unfold run; cbv zeta; fold start; rewrite Hl; reflexivity|].
  unfold emit; cbn [created gmaps console].
  split; [exact Hcr|].
  split; [exact Hgm|].
  split; [rewrite Hcon, !posted_app, Hpo; reflexivity|].
  split; [rewrite Hcon, !updates_app, Hup; reflexivity|].
  split; [exact Hg|].
  split; [exact Hmatch|].
  intros ->. destruct Hquiet as [Hq|Hq]; [discriminate|].
  eapply Forall_impl; [|exact Hq]. intros c Hc.
  unfold is_skipped in Hc. apply orb_true_iff in Hc as [Hc|Hc].
  - left. now apply Nat.ltb_lt.
  - right. apply Nat.eqb_eq in Hc.
    destruct (select_cities recycling (id c)); [reflexivity | discriminate].
Qed.

Lemma rerun_creates_nothing_witness :
  let g : Gmaps := [] in
  let st1 := state_of (run recording_dashboard false two_campaigns g) in
  records_batches recording_dashboard
  /\ run recording_dashboard false two_campaigns g = Completed st1
  /\ created st1 = 1
  /\ exists st2 extra,
      run recording_dashboard false two_campaigns (gmaps st1) = Completed st2
      /\ created st2 = 0
      /\ gmaps st2 = gmaps st1
      /\ posted (console st2) = []
      /\ updates (console st2) = []
      /\ gmaps st1 = g ++ extra
      /\ Forall (fun b => exists c,
                   In c (select_campaigns two_campaigns)
                   /\ batch_matches c b = true) extra
      /\ (false = false ->
          Forall (fun c => 0 < count_existing (gmaps st1) c
                           \/ select_cities two_campaigns (id c) = [])
            (select_campaigns two_campaigns)).
Proof.
  cbv zeta.
  assert (H : run recording_dashboard false two_campaigns []
              = Completed
                  (state_of (run recording_dashboard false two_campaigns [])))
    by (vm_compute; reflexivity).
  split; [exact recording_dashboard_records|].
  split; [exact H|].
  split; [vm_compute; reflexivity|].
  exact (@rerun_creates_nothing recording_dashboard false two_campaigns [] _
           recording_dashboard_records H).
Defined.

(** The check skips every campaign that has existing work in the sense of
    the specification, when the campaign name holds no backslash: nothing is
    sent or written and the skipped counter goes up by one. *)
Theorem existing_work_skips dashboard DRY_RUN recycling campaign st b :
  In b (gmaps st) ->
  is_existing_work campaign b ->
  Sql.no_backslash (campaign_name campaign) = true ->
  exists evs,
    process_campaign dashboard DRY_RUN recycling campaign st
    = Completed
        (mkRunState (created st) (skipped st + 1) (gmaps st) (console st ++ evs))
    /\ posted evs = []
    /\ updates evs = [].
Proof.
  intros Hb Hw Hn.
  assert (Hpos : 0 < count_existing (gmaps st) campaign).
  { apply count_existing_pos. exists b. split; [exact Hb|].
    now apply existing_work_matches. }
  rewrite (process_campaign_existing dashboard DRY_RUN recycling campaign st Hpos).
  eexists. repeat split; reflexivity.
Qed.

Lemma existing_work_skips_witness :
  let b := JobsBatch.mk "legacy-7" "Acme (GMaps) Part 2" None None in
  let st := init_state [b] in
  In b (gmaps st)
  /\ is_existing_work acme b
  /\ Sql.no_backslash (campaign_name acme) = true
  /\ exists evs,
      process_campaign unreachable_dashboard false acme_large acme st
      = Completed
          (mkRunState (created st) (skipped st + 1) (gmaps st)
             (console st ++ evs))
      /\ posted evs = []
      /\ updates evs = [].
Proof.
  cbv zeta.
  assert (H1 : In (JobsBatch.mk "legacy-7" "Acme (GMaps) Part 2" None None)
                 (gmaps (init_state
                    [JobsBatch.mk "legacy-7" "Acme (GMaps) Part 2" None None])))
    by (left; reflexivity).
  assert (H2 : is_existing_work acme
                 (JobsBatch.mk "legacy-7" "Acme (GMaps) Part 2" None None))
    by (right; right; exists " Part 2"; reflexivity).
  split; [exact H1|].
  split; [exact H2|].
  split; [reflexivity|].
  exact (@existing_work_skips unreachable_dashboard false acme_large acme _ _
           H1 H2 eq_refl).
Defined.

(** A rejected request is fatal: the run stops at the campaign, with the
    counters and the tracker store as they were before the request. *)
Theorem rejected_submission_is_fatal dashboard recycling campaign rest st :
  let allCities := select_cities recycling (id campaign) in
  let queries := fst (build_queries allCities) in
  let targetStates := snd (build_queries allCities) in
  let totalParts := Math_ceil_div (List.length queries) BATCH_SIZE in
  count_existing (gmaps st) campaign = 0 ->
  allCities <> [] ->
  dashboard (payload_of campaign queries targetStates totalParts 0) (gmaps st)
  = None ->
  exists st',
    campaign_loop dashboard false recycling (campaign :: rest) st = Fatal st'
    /\ created st' = created st
    /\ skipped st' = skipped st
    /\ gmaps st' = gmaps st.
Proof.
  intros allCities queries targetStates totalParts H0 Hc Hrej.
  cbn [campaign_loop].
  rewrite (process_campaign_planned dashboard false recycling campaign st H0 Hc).
  cbv zeta. fold allCities queries targetStates totalParts.
  pose proof (totalParts_positive recycling campaign Hc) as Hpos.
  fold allCities queries totalParts in Hpos.
  destruct totalParts as [|n] eqn:E; [lia|].
  rewrite <- cons_seq. cbn [submit_parts].
  rewrite submit_part_rejected by exact Hrej.
  cbn [bind]. eexists. split; [reflexivity|].
  repeat split; reflexivity.
Qed.

Lemma rejected_submission_is_fatal_witness :
  let st := init_state [] in
  let allCities := select_cities acme_small (id acme) in
  let queries := fst (build_queries allCities) in
  let targetStates := snd (build_queries allCities) in
  let totalParts := Math_ceil_div (List.length queries) BATCH_SIZE in
  count_existing (gmaps st) acme = 0
  /\ allCities <> []
  /\ unreachable_dashboard
       (payload_of acme queries targetStates totalParts 0) (gmaps st)
     = None
  /\ exists st',
      campaign_loop unreachable_dashboard false acme_small [acme] st = Fatal st'
      /\ created st' = created st
      /\ skipped st' = skipped st
      /\ gmaps st' = gmaps st.
Proof.
  cbv zeta.
  assert (H2 : select_cities acme_small (id acme) <> [])
    by (vm_compute; discriminate).
  split; [reflexivity|].
  split; [exact H2|].
  split; [reflexivity|].
  exact (@rejected_submission_is_fatal unreachable_dashboard acme_small acme []
           (init_state []) eq_refl H2 eq_refl).
Defined.

(** ** Corrections are never undone *)

(** Everything one campaign of a completed run does to the console and to
    the tracker store. *)
Lemma process_campaign_effects dashboard DRY_RUN recycling c st st' :
  records_batches dashboard ->
  process_campaign dashboard DRY_RUN recycling c st = Completed st' ->
  exists evs extra,
    console st' = console st ++ evs
    /\ gmaps st' = gmaps st ++ extra
    /\ Forall (fun b => ~ In (JobsBatch.batch_id b)
                          (map JobsBatch.batch_id (gmaps st))) extra
    /\ (updates evs = []
        \/ (updates evs
            = map (fun b => (campaign_name c, JobsBatch.batch_id b)) extra
            /\ Forall (fun b => JobsBatch.campaign_name b
                                = Some (campaign_name c)) extra)).
Proof.
  intros Hd Hrun.
  destruct (Nat.eq_dec (count_existing (gmaps st) c) 0) as [H0|H0].
  - destruct (select_cities recycling (id c)) as [|city l] eqn:Hc.
    + rewrite (process_campaign_no_cities dashboard DRY_RUN recycling c st
                 H0 Hc) in Hrun.
      injection Hrun as <-. do 2 eexists. cbn [console gmaps].
      split; [reflexivity|]. split; [symmetry; apply app_nil_r|].
      split; [constructor | now left].
    + assert (Hne : select_cities recycling (id c) <> []) by congruence.
      rewrite (process_campaign_planned dashboard DRY_RUN recycling c st
                 H0 Hne) in Hrun.
      cbv zeta in Hrun. destruct DRY_RUN.
      * injection Hrun as <-. do 2 eexists.
        unfold emit; cbn [console gmaps]. rewrite <- app_assoc.
        split; [reflexivity|]. split; [symmetry; apply app_nil_r|].
        split; [constructor | now left].
      * destruct (@submit_parts_completed _ _ _ _ _ Hd _ _ _ Hrun)
          as (evs & extra & Hcon & Hgm & _ & _ & _ & Hup & Hids & _ & _
              & Hcn & Hnew).
        cbn [console gmaps] in Hcon, Hgm, Hnew.
        match type of Hcon with
        | _ = (_ ++ ?pre) ++ _ => exists (pre ++ evs), extra
        end.
        rewrite updates_app. cbn [updates flat_map app].
        split; [now rewrite Hcon, <- app_assoc|].
        split; [exact Hgm|]. split; [exact Hnew|].
        rewrite Hup.
        destruct (1 <? _)%nat eqn:HP; [right | now left].
        split; [now rewrite <- Hids, map_map|].
        apply Hcn. now apply Nat.ltb_lt.
  - rewrite (process_campaign_existing dashboard DRY_RUN recycling c st)
      in Hrun by lia.
    injection Hrun as <-. do 2 eexists. cbn [console gmaps].
    split; [reflexivity|]. split; [symmetry; apply app_nil_r|].
    split; [constructor | now left].
Qed.

Lemma process_campaign_keeps_corrections dashboard DRY_RUN recycling c st st' :
  records_batches dashboard ->
  corrections_hold st ->
  process_campaign dashboard DRY_RUN recycling c st = Completed st' ->
  corrections_hold st'.
Proof.
  intros Hd Hinv Hrun.
  destruct (process_campaign_effects DRY_RUN recycling c st Hd Hrun)
    as (evs & extra & Hcon & Hgm & Hnew & Hup).
  unfold corrections_hold in *. rewrite Hcon, Hgm, updates_app.
  rewrite Forall_forall in Hnew. apply Forall_app. split.
  - eapply Forall_impl; [|exact Hinv].
    intros u [(b0 & Hb0 & Hid0) Hall]. split.
    + exists b0. split; [apply in_or_app; now left | exact Hid0].
    + intros b Hb Hid. apply in_app_or in Hb as [Hb|Hb]; [now apply Hall|].
      exfalso. apply (Hnew b Hb). rewrite Hid, <- Hid0. now apply in_map.
  - destruct Hup as [-> | [-> Hcn]]; [constructor|].
    rewrite Forall_forall in Hcn. apply Forall_forall. intros u Hu.
    apply in_map_iff in Hu. destruct Hu as (b0 & <- & Hb0).
    cbn [fst snd]. split.
    + exists b0. split; [apply in_or_app; now right | reflexivity].
    + intros b Hb Hid. apply in_app_or in Hb as [Hb|Hb]; [|now apply Hcn].
      exfalso. apply (Hnew b0 Hb0). rewrite <- Hid. now apply in_map.
Qed.

Lemma campaign_loop_keeps_corrections dashboard DRY_RUN recycling campaigns :
  records_batches dashboard ->
  forall st st',
    corrections_hold st ->
    campaign_loop dashboard DRY_RUN recycling campaigns st = Completed st' ->
    corrections_hold st'.
Proof.
  intros Hd. induction campaigns as [|c rest IH]; intros st st' Hinv Hrun.
  - now injection Hrun as <-.
  - cbn [campaign_loop] in Hrun.
    destruct (process_campaign dashboard DRY_RUN recycling c st) as [st1|st1]
      eqn:Hp; cbn [bind] in Hrun; [|discriminate].
    apply (IH st1 st'); [|exact Hrun].
    exact (process_campaign_keeps_corrections DRY_RUN recycling c Hd Hinv Hp).
Qed.

(** At the end of a completed run every correction written during the run
    holds in the tracker store: later requests and later corrections of the
    same run did not touch the rows of earlier batches. *)
Theorem corrections_hold_at_end dashboard DRY_RUN recycling g st :
  records_batches dashboard ->
  run dashboard DRY_RUN recycling g = Completed st ->
  corrections_hold st.
Proof.
  intros Hd Hrun.
  destruct (run_completed _ _ _ _ Hrun) as (st0 & Hloop & ->).
  assert (H0 : corrections_hold st0).
  { eapply campaign_loop_keeps_corrections; [exact Hd | | exact Hloop].
    constructor. }
  unfold corrections_hold, emit in *. cbn [console gmaps].
  rewrite updates_app. cbn [updates flat_map app]. now rewrite app_nil_r.
Qed.

Lemma corrections_hold_at_end_witness :
  let st := state_of (run recording_dashboard false acme_large []) in
  records_batches recording_dashboard
  /\ run recording_dashboard false acme_large [] = Completed st
  /\ corrections_hold st.
Proof.
  cbv zeta.
  assert (H : run recording_dashboard false acme_large []
              = Completed (state_of (run recording_dashboard false acme_large [])))
    by (apply completed_state_of; unfold run; cbv zeta;
        destruct (@campaign_loop_total recording_dashboard false acme_large
                    (select_campaigns acme_large) recording_dashboard_answers
                    (mkRunState 0 0 []
                       [LogFound (List.length (select_campaigns acme_large))]))
          as [st Hl];
        rewrite Hl; eexists; reflexivity).
  split; [exact recording_dashboard_records|].
  split; [exact H|].
  exact (@corrections_hold_at_end recording_dashboard false acme_large [] _
           recording_dashboard_records H).
Defined.

(** * Further properties of the source *)

From Stdlib Require Import Sorted Permutation DecimalNat.

(** ** [ORDER BY] *)

Module SqlOrder.
Import Sql.

Section InsertionSort.

Variable A : Type.
Variable le : A -> A -> bool.
Hypothesis le_total : forall x y, le x y = false -> le y x = true.

Let R (x y : A) : Prop := le x y = true.

Lemma HdRel_insert_by x y l :
  R y x -> HdRel R y l -> HdRel R y (insert_by le x l).
Proof.
  intros Hyx Hl. destruct l as [|z l]; simpl.
  - now constructor.
  - destruct (le x z); constructor; [exact Hyx|].
    now inversion Hl.
Qed.

Lemma Sorted_insert_by x l :
  Sorted R l -> Sorted R (insert_by le x l).
Proof.
  induction l as [|z l IH]; simpl; intros Hs.
  - repeat constructor.
  - destruct (le x z) eqn:E.
    + constructor; [exact Hs | now constructor].
    + inversion Hs; subst. constructor; [now apply IH|].
      apply HdRel_insert_by; [now apply le_total | assumption].
Qed.

Lemma Sorted_order_by l : Sorted R (order_by le l).
Proof.
  induction l as [|x l IH]; simpl; [constructor|].
  now apply Sorted_insert_by.
Qed.

Lemma Permutation_insert_by x l : Permutation (insert_by le x l) (x :: l).
Proof.
  induction l as [|z l IH]; simpl; [reflexivity|].
  destruct (le x z); [reflexivity|].
  rewrite IH. apply perm_swap.
Qed.

Lemma Permutation_order_by l : Permutation (order_by le l) l.
Proof.
  induction l as [|x l IH]; simpl; [reflexivity|].
  rewrite Permutation_insert_by. now constructor.
Qed.

End InsertionSort.

End SqlOrder.

Lemma ilike_gmaps_iff s :
  Sql.ilike "%(GMaps)%" s = true <-> mentions_gmaps s.
Proof.
  split.
  - intros H. apply (SqlInversion.ilike_contains_inv "(GMaps)" s eq_refl) in H.
    exact H.
  - intros (pre & w & suf & Hw & ->).
    apply (SqlFacts.ilike_contains "(GMaps)" pre w suf eq_refl Hw).
Qed.

(** The campaign query returns the campaigns in ascending id order; it
    returns exactly the rows of [instant_campaigns] that are active and
    whose name contains "(GMaps)" in any mix of cases, each as often as the
    table holds it. *)
Theorem select_campaigns_sorted_family recycling :
  Sorted (fun a b => (id a <= id b)%Z) (select_campaigns recycling)
  /\ (forall c,
        In c (select_campaigns recycling)
        <-> exists ic,
              In ic (instant_campaigns recycling)
              /\ InstantCampaigns.is_active ic = true
              /\ mentions_gmaps (InstantCampaigns.campaign_name ic)
              /\ c = mkCampaign (InstantCampaigns.id ic)
                       (InstantCampaigns.campaign_name ic))
  /\ Permutation
       (map id (select_campaigns recycling))
       (map InstantCampaigns.id
          (filter
             (fun ic =>
                Sql.ilike "%(GMaps)%" (InstantCampaigns.campaign_name ic)
                && InstantCampaigns.is_active ic)
             (instant_campaigns recycling))).
Proof.
  unfold select_campaigns.
  set (le := fun a b => (InstantCampaigns.id a <=? InstantCampaigns.id b)%Z).
  set (keep := fun ic =>
         Sql.ilike "%(GMaps)%" (InstantCampaigns.campaign_name ic)
         && Bool.eqb (InstantCampaigns.is_active ic) true).
  assert (Hkeep : forall ic,
    keep ic = Sql.ilike "%(GMaps)%" (InstantCampaigns.campaign_name ic)
              && InstantCampaigns.is_active ic).
  { intros ic. unfold keep. now destruct (InstantCampaigns.is_active ic). }
  split; [|split].
  - assert (Hs : Sorted (fun a b => le a b = true)
                   (Sql.order_by le (filter keep (instant_campaigns recycling)))).
    { apply SqlOrder.Sorted_order_by. intros x y H. unfold le in *.
      apply Z.leb_le. apply Z.leb_gt in H. lia. }
    induction Hs as [|ic l Hl IH Hd]; simpl; constructor; [exact IH|].
    destruct Hd as [|ic' l' Hle]; simpl; constructor.
    cbn [id]. now apply Z.leb_le.
  - intros c. rewrite in_map_iff. split.
    + intros (ic & <- & Hin). apply SqlFacts.in_order_by, filter_In in Hin.
      destruct Hin as [Hin Hk]. rewrite Hkeep in Hk.
      apply andb_true_iff in Hk as [Hn Ha].
      exists ic. repeat split; auto. now apply ilike_gmaps_iff.
    + intros (ic & Hin & Ha & Hn & ->). exists ic. split; [reflexivity|].
      apply SqlFacts.in_order_by, filter_In. split; [exact Hin|].
      rewrite Hkeep, Ha. apply ilike_gmaps_iff in Hn. now rewrite Hn.
  - rewrite map_map. cbn [id].
    rewrite (filter_ext _ _ Hkeep (instant_campaigns recycling)) at 1.
    apply Permutation_map, SqlOrder.Permutation_order_by.
Qed.


(** ** The region codes of a request *)

Lemma set_add_In x s y : In y (set_add x s) <-> y = x \/ In y s.
Proof.
  unfold set_add. destruct (existsb (String.eqb x) s) eqn:E.
  - apply existsb_exists in E. destruct E as (z & Hz & Heq).
    apply String.eqb_eq in Heq. subst z. intuition congruence.
  - rewrite in_app_iff. simpl. intuition congruence.
Qed.

Lemma set_add_NoDup x s : NoDup s -> NoDup (set_add x s).
Proof.
  intros Hs. unfold set_add. destruct (existsb (String.eqb x) s) eqn:E.
  - exact Hs.
  - apply NoDup_app; [exact Hs | repeat constructor; intros [] |].
    intros a Ha [Heq|[]]. subst a.
    assert (Ht : existsb (String.eqb x) s = true).
    { apply existsb_exists. exists x. split; [exact Ha|].
      apply String.eqb_refl. }
    congruence.
Qed.

Lemma target_states_from (allCities : list City) (qs ss : list string) :
  let states :=
    snd (fold_left
           (fun acc city =>
              (push_categories (location city) (fst acc),
               set_add (state_code city) (snd acc)))
           allCities (qs, ss)) in
  (NoDup ss -> NoDup states)
  /\ forall s,
       In s states
       <-> In s ss \/ exists city, In city allCities /\ state_code city = s.
Proof.
  revert qs ss. induction allCities as [|c l IH]; intros qs ss; cbn zeta.
  - simpl. split; [auto|]. intros s. split; [auto|].
    intros [H|(city & [] & _)]. exact H.
  - cbn [fold_left fst snd].
    destruct (IH (push_categories (location c) qs)
                 (set_add (state_code c) ss)) as [Hn Hi].
    split.
    + intros Hs. now apply Hn, set_add_NoDup.
    + intros s. rewrite Hi, set_add_In. split.
      * intros [[->|H]|(city & Hc & Hs)]; auto.
        -- right. exists c. split; [now left | reflexivity].
        -- right. exists city. split; [now right | exact Hs].
      * intros [H|(city & [<-|Hc] & Hs)]; auto.
        right. now exists city.
Qed.

(** The region codes sent with a campaign's requests are the region codes
    of its resolved cities, each once. *)
Theorem target_states_distinct_complete (allCities : list City) :
  NoDup (snd (build_queries allCities))
  /\ (forall s,
        In s (snd (build_queries allCities))
        <-> exists city, In city allCities /\ state_code city = s)
  /\ List.length (snd (build_queries allCities)) <= List.length allCities.
Proof.
  destruct (target_states_from allCities [] []) as [Hn Hi].
  fold (build_queries allCities) in Hn, Hi. cbv zeta in Hn, Hi.
  assert (Hnd : NoDup (snd (build_queries allCities)))
    by (apply Hn; constructor).
  assert (Hin : forall s,
    In s (snd (build_queries allCities))
    <-> exists city, In city allCities /\ state_code city = s).
  { intros s. rewrite Hi. split; [intros [[]|H]; exact H | now right]. }
  split; [exact Hnd | split; [exact Hin|]].
  rewrite <- (length_map state_code allCities).
  apply NoDup_incl_length; [exact Hnd|].
  intros s Hs. apply Hin in Hs. destruct Hs as (city & Hc & <-).
  now apply in_map.
Qed.

(** ** Text *)

Module StringFacts.

Lemma append_assoc (a b c : string) :
  ((a ++ b) ++ c = a ++ (b ++ c))%string.
Proof. induction a; simpl; congruence. Qed.

Lemma append_nil_r (a : string) : (a ++ "")%string = a.
Proof. induction a; simpl; congruence. Qed.

Lemma append_inv_head (a x y : string) :
  (a ++ x = a ++ y)%string -> x = y.
Proof. induction a; simpl; intros H; [exact H | injection H; auto]. Qed.

Lemma append_length (a b : string) :
  String.length (a ++ b) = String.length a + String.length b.
Proof. induction a; simpl; congruence. Qed.

(** Two ways of cutting one text: one head is the other head and more. *)
Lemma append_split (a x : string) : forall b y : string,
  (a ++ x = b ++ y)%string ->
  (exists r, b = (a ++ r)%string /\ x = (r ++ y)%string)
  \/ (exists r, a = (b ++ r)%string /\ y = (r ++ x)%string).
Proof.
  induction a as [|ch a IH]; intros b y H.
  - left. exists b. now split.
  - destruct b as [|ch' b].
    + right. exists (String ch a). now split.
    + simpl in H. injection H as -> H.
      destruct (IH b y H) as [(r & -> & ->) | (r & -> & ->)].
      * left. exists r. now split.
      * right. exists r. now split.
Qed.

Lemma prefix_append (p r : string) : String.prefix p (p ++ r) = true.
Proof.
  induction p as [|ch p IH]; simpl; [now destruct r|].
  destruct (Ascii.ascii_dec ch ch); [exact IH | congruence].
Qed.

End StringFacts.

(** ** Queries are not repeated *)

(** No category is another category followed by a space, so the first
    " in " of a query ends the category. *)
Lemma catalog_prefix_free :
  forallb
    (fun a => forallb (fun b => negb (String.prefix (a ++ " ") b)) CATEGORIES)
    CATEGORIES
  = true.
Proof. vm_compute. reflexivity. Qed.

Lemma catalog_NoDup : NoDup CATEGORIES.
Proof.
  assert (H : nodup string_dec CATEGORIES = CATEGORIES)
    by (vm_compute; reflexivity).
  rewrite <- H. apply NoDup_nodup.
Qed.

Lemma category_not_extended a b r :
  In a CATEGORIES -> In b CATEGORIES -> b <> (a ++ String " " r)%string.
Proof.
  intros Ha Hb Heq.
  pose proof catalog_prefix_free as H.
  rewrite forallb_forall in H. specialize (H a Ha).
  rewrite forallb_forall in H. specialize (H b Hb).
  apply negb_true_iff in H.
  change (String " " r) with (" " ++ r)%string in Heq.
  rewrite <- StringFacts.append_assoc in Heq.
  rewrite Heq, StringFacts.prefix_append in H. discriminate.
Qed.

Lemma query_inj cat1 loc1 cat2 loc2 :
  In cat1 CATEGORIES -> In cat2 CATEGORIES ->
  query cat1 loc1 = query cat2 loc2 ->
  cat1 = cat2 /\ loc1 = loc2.
Proof.
  intros H1 H2 Hq. unfold query in Hq.
  assert (Hc : cat1 = cat2).
  { apply StringFacts.append_split in Hq.
    destruct Hq as [(r & Hb & Hx) | (r & Hb & Hx)];
      (destruct r as [|ch r];
       [rewrite StringFacts.append_nil_r in Hb; congruence|]);
      simpl in Hx; injection Hx as <- _; exfalso.
    - exact (category_not_extended r H1 H2 Hb).
    - exact (category_not_extended r H2 H1 Hb). }
  split; [exact Hc|]. subst cat2.
  apply StringFacts.append_inv_head in Hq.
  now apply (StringFacts.append_inv_head " in ") in Hq.
Qed.

Lemma NoDup_map_on (A B : Type) (f : A -> B) (l : list A) :
  NoDup l ->
  (forall x y, In x l -> In y l -> f x = f y -> x = y) ->
  NoDup (map f l).
Proof.
  induction 1 as [|x l Hx Hl IH]; intros Hinj; simpl; constructor.
  - intros Hin. apply in_map_iff in Hin. destruct Hin as (y & Hy & Hin).
    apply Hx. rewrite (Hinj x y); auto; [now left | now right].
  - apply IH. intros a b Ha Hb. apply Hinj; now right.
Qed.

Lemma cross_product_In targets q :
  In q (cross_product targets CATEGORIES)
  <-> exists cat t,
        In cat CATEGORIES /\ In t targets /\ q = query cat (location t).
Proof.
  unfold cross_product. rewrite in_flat_map. split.
  - intros (t & Ht & Hq). apply in_map_iff in Hq.
    destruct Hq as (cat & <- & Hc). now exists cat, t.
  - intros (cat & t & Hc & Ht & ->). exists t. split; [exact Ht|].
    apply in_map_iff. now exists cat.
Qed.

Lemma cross_product_NoDup targets :
  NoDup (map location targets) -> NoDup (cross_product targets CATEGORIES).
Proof.
  induction targets as [|t l IH]; intros Hn; [constructor|].
  simpl in Hn. inversion Hn as [|? ? Hnot Hl]; subst.
  change (cross_product (t :: l) CATEGORIES)
    with (map (fun cat => query cat (location t)) CATEGORIES
          ++ cross_product l CATEGORIES).
  apply NoDup_app.
  - apply NoDup_map_on; [exact catalog_NoDup|].
    intros x y Hx Hy Hq. now apply (query_inj _ _ Hx Hy) in Hq.
  - now apply IH.
  - intros q Hq Hq'. apply in_map_iff in Hq. destruct Hq as (cat & <- & Hc).
    apply cross_product_In in Hq'. destruct Hq' as (cat' & t' & Hc' & Ht' & Hq).
    apply (query_inj _ _ Hc Hc') in Hq. destruct Hq as [_ Hloc].
    apply Hnot. rewrite Hloc. now apply in_map.
Qed.

(** When the resolved cities have pairwise different "city, region" texts,
    no query occurs twice in a campaign: not within a part and not across
    parts. *)
Theorem queries_never_repeated (allCities : list City) :
  NoDup (map location allCities) ->
  NoDup (fst (build_queries allCities))
  /\ NoDup (List.concat (plan_chunks (fst (build_queries allCities)))).
Proof.
  intros Hn.
  assert (Hq : NoDup (fst (build_queries allCities))).
  { rewrite build_queries_cross_product. now apply cross_product_NoDup. }
  split; [exact Hq|].
  unfold plan_chunks. rewrite concat_chunks; [exact Hq|].
  assert (HB : 0 < BATCH_SIZE) by (unfold BATCH_SIZE; lia).
  destruct (Math_ceil_div_bounds (List.length (fst (build_queries allCities)))
              HB) as [Hlo _].
  lia.
Qed.

Lemma queries_never_repeated_witness :
  NoDup (map location (select_cities acme_small 1))
  /\ NoDup (fst (build_queries (select_cities acme_small 1)))
  /\ NoDup (List.concat
              (plan_chunks (fst (build_queries (select_cities acme_small 1))))).
Proof.
  assert (H : NoDup (map location (select_cities acme_small 1))).
  { assert (E : nodup string_dec (map location (select_cities acme_small 1))
                = map location (select_cities acme_small 1))
      by (vm_compute; reflexivity).
    rewrite <- E. apply NoDup_nodup. }
  split; [exact H|].
  exact (@queries_never_repeated (select_cities acme_small 1) H).
Defined.

(** ** Part names *)

Lemma decimal_inj n m : decimal n = decimal m -> n = m.
Proof.
  unfold decimal. intros H.
  apply (f_equal NilEmpty.uint_of_string) in H.
  rewrite !NilEmpty.usu in H. injection H as H.
  now apply DecimalNat.Unsigned.to_uint_inj.
Qed.

(** The requests of one campaign carry pairwise different names, whatever
    the number of parts. *)
Theorem part_names_distinct campaign queries statesArray totalParts :
  NoDup
    (map Payload.name
       (map (payload_of campaign queries statesArray totalParts)
          (seq 0 totalParts))).
Proof.
  rewrite map_map. cbn [payload_of Payload.name]. unfold batch_name.
  destruct (1 <? totalParts)%nat eqn:HP.
  - apply NoDup_map_on; [apply seq_NoDup|].
    intros i j _ _ H.
    apply StringFacts.append_inv_head in H.
    apply (StringFacts.append_inv_head " Part ") in H.
    apply decimal_inj in H. lia.
  - apply Nat.ltb_ge in HP.
    destruct totalParts as [|[|n]]; [constructor | | lia].
    simpl. constructor; [intros [] | constructor].
Qed.

(** ** The existing-work check on names without pattern characters *)

Lemma all_plain_no_backslash s :
  Sql.all_plain s = true -> Sql.no_backslash s = true.
Proof.
  induction s as [|a s IH]; simpl; [reflexivity|].
  unfold Sql.plain. rewrite !andb_true_iff. intros [[[_ _] Hb] Hs].
  split; [exact Hb | now apply IH].
Qed.

(** When the campaign name holds none of [%], [_] and the backslash, the
    check counts a batch exactly when it is linked to the campaign, carries
    its name in [campaign_name], or has a name that starts with it. *)
Theorem plain_name_check_is_exact g c :
  Sql.all_plain (campaign_name c) = true ->
  (forall b, batch_matches c b = true <-> is_existing_work c b)
  /\ (0 < count_existing g c <-> exists b, In b g /\ is_existing_work c b).
Proof.
  intros Hp.
  assert (Hm : forall b, batch_matches c b = true <-> is_existing_work c b).
  { intros b. split.
    - unfold batch_matches, is_existing_work.
      rewrite !orb_true_iff. intros [[H|H]|H].
      + left. destruct (JobsBatch.lead_recycling_campaign_id b) as [z|];
          [|discriminate]. cbn [Sql.null_eq] in H.
        apply Z.eqb_eq in H. now subst.
      + right. left. destruct (JobsBatch.campaign_name b) as [s|];
          [|discriminate]. cbn [Sql.null_eq] in H.
        apply String.eqb_eq in H. now subst.
      + right. right.
        apply (SqlInversion.like_plain_inv (campaign_name c) "%") in H;
          [|exact Hp].
        destruct H as (rest & H & _). now exists rest.
    - apply existing_work_matches. now apply all_plain_no_backslash. }
  split; [exact Hm|].
  rewrite count_existing_pos. split; intros (b & Hb & H); exists b;
    (split; [exact Hb | now apply Hm]).
Qed.

Lemma plain_name_check_is_exact_witness :
  Sql.all_plain (campaign_name acme) = true
  /\ (forall b, batch_matches acme b = true <-> is_existing_work acme b)
  /\ (0 < count_existing [foreign_row] acme
      <-> exists b, In b [foreign_row] /\ is_existing_work acme b).
Proof.
  split; [reflexivity|].
  exact (@plain_name_check_is_exact [foreign_row] acme eq_refl).
Defined.

(** ** Reasoning along a run, whatever its outcome *)

Section OutcomeInduction.

Variable R : RunState -> Outcome -> Prop.
Hypothesis R_done : forall st, R st (Completed st).
Hypothesis R_then :
  forall st st1 o, R st (Completed st1) -> R st1 o -> R st o.

Variable dashboard : Dashboard.
Variable DRY_RUN : bool.
Variable recycling : Recycling.

Lemma submit_parts_along campaign queries statesArray totalParts indices :
  (forall i st,
      In i indices ->
      R st (submit_part dashboard campaign queries statesArray totalParts i st)) ->
  forall st,
    R st (submit_parts dashboard campaign queries statesArray totalParts
            indices st).
Proof.
  induction indices as [|i rest IH]; intros Hstep st; [apply R_done|].
  cbn [submit_parts].
  pose proof (Hstep i st (or_introl eq_refl)) as Hi.
  destruct (submit_part dashboard campaign queries statesArray totalParts i st)
    as [st1|st1]; cbn [bind]; [|exact Hi].
  apply (R_then Hi). apply IH. intros j st' Hj. apply Hstep. now right.
Qed.

Lemma campaign_loop_along campaigns :
  (forall c st,
      In c campaigns ->
      R st (process_campaign dashboard DRY_RUN recycling c st)) ->
  forall st, R st (campaign_loop dashboard DRY_RUN recycling campaigns st).
Proof.
  induction campaigns as [|c rest IH]; intros Hstep st; [apply R_done|].
  cbn [campaign_loop].
  pose proof (Hstep c st (or_introl eq_refl)) as Hc.
  destruct (process_campaign dashboard DRY_RUN recycling c st) as [st1|st1];
    cbn [bind]; [|exact Hc].
  apply (R_then Hc). apply IH. intros c' st' Hc'. apply Hstep. now right.
Qed.

End OutcomeInduction.

(** ** The tracker store only grows *)

Lemma grew_by_done Q st : grew_by Q st (Completed st).
Proof.
  exists []. cbn [state_of]. rewrite app_nil_r. simpl.
  repeat split; [lia | constructor].
Qed.

Lemma grew_by_then Q st st1 o :
  grew_by Q st (Completed st1) -> grew_by Q st1 o -> grew_by Q st o.
Proof.
  intros (e1 & Hg1 & Hc1 & Hq1) (e2 & Hg2 & Hc2 & Hq2).
  cbn [state_of] in Hg1, Hc1.
  exists (e1 ++ e2). rewrite Hg2, Hg1, Hc2, Hc1, length_app, app_assoc.
  repeat split; [lia | now apply Forall_app].
Qed.


Lemma batch_name_starts_with baseName totalParts partNum :
  exists suffix, batch_name baseName totalParts partNum
                 = (baseName ++ suffix)%string.
Proof.
  unfold batch_name. destruct (1 <? totalParts)%nat.
  - eexists. reflexivity.
  - exists EmptyString. now rewrite StringFacts.append_nil_r.
Qed.





(** ** The counters and the console *)

Lemma plans_app a b : plans (a ++ b) = plans a + plans b.
Proof. unfold plans. now rewrite filter_app, length_app. Qed.

Lemma delays_app a b : delays (a ++ b) = delays a + delays b.
Proof. unfold delays. now rewrite filter_app, length_app. Qed.

Lemma checks_app a b : checks (a ++ b) = checks a + checks b.
Proof. unfold checks. now rewrite filter_app, length_app. Qed.

Lemma skips_app a b : skips (a ++ b) = skips a + skips b.
Proof. unfold skips. now rewrite filter_app, length_app. Qed.

Ltac count_lines :=
  rewrite ?plans_app, ?delays_app, ?checks_app, ?skips_app, ?posted_app,
    ?length_app;
  cbn [plans delays checks skips posted filter flat_map app List.length].

Lemma part_events_counts p baseName totalParts i batchId :
  let evs := part_events p baseName totalParts i batchId in
  plans evs = 0 /\ checks evs = 0 /\ skips evs = 0
  /\ delays evs = (if (i <? totalParts - 1)%nat then 1 else 0).
Proof.
  unfold part_events.
  destruct (1 <? totalParts)%nat, (i <? totalParts - 1)%nat;
    repeat split; reflexivity.
Qed.

(** The submission loop over the parts [a .. a + n - 1], the last ones of
    the campaign: every request but the first of the range follows a pause,
    and a rejected request ends the range. *)
Lemma submit_parts_counts dashboard c queries statesArray totalParts :
  forall n a st,
    a + n = totalParts ->
    let o := submit_parts dashboard c queries statesArray totalParts
               (seq a n) st in
    exists evs,
      console (state_of o) = console st ++ evs
      /\ created (state_of o) + failed o
         = created st + List.length (posted evs)
      /\ skipped (state_of o) = skipped st
      /\ plans evs = 0 /\ checks evs = 0 /\ skips evs = 0
      /\ delays evs + (if (n =? 0)%nat then 0 else 1)
         = List.length (posted evs)
      /\ (failed o = 0 -> List.length (posted evs) = n).
Proof.
  induction n as [|n IH]; intros a st Han; cbv zeta.
  - exists []. cbn [seq submit_parts state_of failed]. rewrite app_nil_r.
    repeat split; count_lines; simpl; lia.
  - cbn [seq submit_parts].
    destruct (submit_part_cases dashboard c queries statesArray totalParts a st)
      as [[_ ->] | (batchId & g & _ & ->)]; cbn [bind].
    + exists [HttpPost (payload_of c queries statesArray totalParts a)].
      cbn [state_of failed emit console created skipped].
      repeat split; try reflexivity; simpl; lia.
    + match goal with
      | |- context [submit_parts _ _ _ _ _ _ ?s] =>
          destruct (IH (S a) s ltac:(lia))
            as (evs & Hcon & Hcr & Hsk & Hpl & Hch & Hsp & Hde & Hall)
      end.
      cbn [console created skipped] in Hcon, Hcr, Hsk.
      destruct (part_events_counts
                  (payload_of c queries statesArray totalParts a)
                  (campaign_name c) totalParts a batchId)
        as (Ep & Ec & Es & Ed).
      eexists (part_events _ _ _ _ _ ++ evs).
      rewrite plans_app, checks_app, skips_app, delays_app, posted_app,
        length_app, posted_part_events, Ep, Ec, Es, Ed, Hpl, Hch, Hsp.
      split; [now rewrite Hcon, app_assoc|].
      split; [simpl; lia|]. split; [exact Hsk|].
      split; [reflexivity|]. split; [reflexivity|]. split; [reflexivity|].
      split.
      * cbn [Nat.eqb List.length].
        destruct (a <? totalParts - 1)%nat eqn:E;
          [apply Nat.ltb_lt in E | apply Nat.ltb_ge in E];
          destruct n; cbn [Nat.eqb] in Hde; simpl; lia.
      * intros Hf. specialize (Hall Hf). simpl. lia.
Qed.




(** ** Every request is well formed *)

Lemma sends_only_done P st : sends_only P st (Completed st).
Proof. exists []. cbn [state_of]. rewrite app_nil_r. split; [auto | constructor]. Qed.

Lemma sends_only_then P st st1 o :
  sends_only P st (Completed st1) -> sends_only P st1 o -> sends_only P st o.
Proof.
  intros (e1 & Hc1 & Hp1) (e2 & Hc2 & Hp2). cbn [state_of] in Hc1.
  exists (e1 ++ e2). rewrite Hc2, Hc1, app_assoc, posted_app.
  split; [reflexivity | now apply Forall_app].
Qed.

Lemma sends_only_weaken (P P' : Payload.t -> Prop) st o :
  (forall p, P p -> P' p) -> sends_only P st o -> sends_only P' st o.
Proof.
  intros H (e & Hc & Hp). exists e. split; [exact Hc|].
  eapply Forall_impl; [exact H | exact Hp].
Qed.

Lemma sends_nothing P st st' evs :
  console st' = console st ++ evs -> posted evs = [] ->
  sends_only P st (Completed st').
Proof.
  intros Hc Hp. exists evs. cbn [state_of]. rewrite Hp.
  split; [exact Hc | constructor].
Qed.

Lemma In_firstn (A : Type) n (l : list A) x : In x (firstn n l) -> In x l.
Proof.
  intros H. rewrite <- (firstn_skipn n l). apply in_or_app. now left.
Qed.

Lemma In_skipn (A : Type) n (l : list A) x : In x (skipn n l) -> In x l.
Proof.
  intros H. rewrite <- (firstn_skipn n l). apply in_or_app. now right.
Qed.

Lemma payload_is_request recycling c i :
  let allCities := select_cities recycling (id c) in
  let queries := fst (build_queries allCities) in
  let targetStates := snd (build_queries allCities) in
  let totalParts := Math_ceil_div (List.length queries) BATCH_SIZE in
  i < totalParts ->
  request_of recycling c (payload_of c queries targetStates totalParts i).
Proof.
  intros allCities queries targetStates totalParts Hi.
  unfold request_of, payload_of.
  cbn [Payload.leadRecyclingCampaignId Payload.autoImport Payload.name
       Payload.queries Payload.targetStates].
  split; [reflexivity|]. split; [reflexivity|].
  split; [apply batch_name_starts_with|].
  split.
  { assert (HB : 0 < BATCH_SIZE) by (unfold BATCH_SIZE; lia).
    destruct (Math_ceil_div_bounds (List.length queries) HB) as [_ Hhi].
    fold totalParts in Hhi. rewrite chunk_of_length. nia. }
  split.
  { intros q Hq. rewrite chunk_of_eq in Hq.
    apply In_firstn, In_skipn in Hq. unfold queries in Hq.
    rewrite build_queries_cross_product in Hq.
    apply cross_product_In in Hq. destruct Hq as (cat & t & Hc & Ht & ->).
    now exists cat, t. }
  destruct (target_states_from allCities [] []) as [Hn Hin].
  fold (build_queries allCities) in Hn, Hin. cbv zeta in Hn, Hin.
  split; [apply Hn; constructor|].
  intros s. unfold targetStates. rewrite Hin.
  split; [intros [[]|H]; exact H | now right].
Qed.

Lemma submit_part_sends dashboard c queries statesArray totalParts i st :
  sends_only (eq (payload_of c queries statesArray totalParts i)) st
    (submit_part dashboard c queries statesArray totalParts i st).
Proof.
  destruct (submit_part_cases dashboard c queries statesArray totalParts i st)
    as [[_ ->] | (batchId & g & _ & ->)].
  - eexists [_]. cbn [state_of emit console].
    split; [reflexivity|]. repeat constructor.
  - eexists. cbn [state_of console]. split; [reflexivity|].
    rewrite posted_part_events. repeat constructor.
Qed.

Lemma process_campaign_sends dashboard DRY_RUN recycling c st :
  sends_only (request_of recycling c) st
    (process_campaign dashboard DRY_RUN recycling c st).
Proof.
  destruct (Nat.eq_dec (count_existing (gmaps st) c) 0) as [H0|H0].
  - destruct (select_cities recycling (id c)) as [|city l] eqn:Hc.
    + rewrite (process_campaign_no_cities dashboard DRY_RUN recycling c st
                 H0 Hc).
      eapply sends_nothing; reflexivity.
    + assert (Hne : select_cities recycling (id c) <> []) by congruence.
      rewrite (process_campaign_planned dashboard DRY_RUN recycling c st
                 H0 Hne).
      cbv zeta. destruct DRY_RUN.
      * eapply sends_nothing; [unfold emit; cbn [console];
                               rewrite <- app_assoc; reflexivity|].
        reflexivity.
      * match goal with
        | |- sends_only _ _ (submit_parts _ _ _ _ _ _ ?s) =>
            apply (sends_only_then (st1 := s))
        end.
        -- eapply sends_nothing; reflexivity.
        -- apply submit_parts_along;
             [apply sends_only_done | apply sends_only_then |].
           intros i st' Hi. apply in_seq in Hi.
           eapply sends_only_weaken; [|apply submit_part_sends].
           intros p <-. apply payload_is_request. lia.
  - rewrite (process_campaign_existing dashboard DRY_RUN recycling c st)
      by lia.
    eapply sends_nothing; reflexivity.
Qed.

(** Whatever the dashboard answers and however the run ends, every request
    it sent belongs to a selected campaign: it carries that campaign's id
    and the import flag, a name that starts with the campaign name, at least
    one and at most 2000 queries, each a catalog category in one of the
    campaign's resolved cities, and the distinct region codes of those
    cities. *)
Theorem requests_well_formed dashboard DRY_RUN recycling g :
  Forall
    (fun p => exists c,
       In c (select_campaigns recycling) /\ request_of recycling c p)
    (posted (console (state_of (run dashboard DRY_RUN recycling g)))).
Proof.
  unfold run. cbv zeta.
  set (start := mkRunState 0 0 g _).
  assert (H : sends_only
                (fun p => exists c,
                   In c (select_campaigns recycling) /\ request_of recycling c p)
                start
                (campaign_loop dashboard DRY_RUN recycling
                   (select_campaigns recycling) start)).
  { apply campaign_loop_along; [apply sends_only_done | apply sends_only_then |].
    intros c st Hc.
    apply (sends_only_weaken (P := request_of recycling c));
      [intros p Hp; now exists c | apply process_campaign_sends]. }
  destruct H as (evs & Hcon & Hp).
  destruct (campaign_loop _ _ _ _ _) as [st|st]; cbn [bind state_of] in *;
    unfold emit; cbn [console]; rewrite Hcon; unfold start; cbn [console];
    rewrite ?posted_app; cbn [posted flat_map app]; rewrite ?app_nil_r;
    exact Hp.
Qed.

(** ** A fatal outcome *)




(** ** Configuration *)

Module ConfigFacts.
Import Config.

Lemma strip_app_slash s : strip_trailing_slash (s ++ "/") = s.
Proof.
  induction s as [|a s IH]; [reflexivity|].
  change ((String a s ++ "/")%string) with (String a (s ++ "/")).
  cbn [strip_trailing_slash]. rewrite IH.
  now destruct s.
Qed.

Lemma strip_no_slash s :
  (forall t, s <> (t ++ "/")%string) -> strip_trailing_slash s = s.
Proof.
  induction s as [|a s IH]; intros H; [reflexivity|].
  cbn [strip_trailing_slash]. destruct s as [|b s].
  - destruct (Ascii.eqb_spec a "/") as [->|]; [|reflexivity].
    exfalso. now apply (H EmptyString).
  - f_equal. apply IH. intros t Ht.
    apply (H (String a t)). simpl. now rewrite Ht.
Qed.

Lemma or_default_set a r d : or_default (Some (String a r)) d = String a r.
Proof. reflexivity. Qed.

End ConfigFacts.

(** One slash at the end of the configured dashboard address is dropped:
    with or without it the requests go to the address followed by
    "/api/batches", and the whole process behaves the same.  Without a
    configured address, or with an empty one, they go to the default. *)
Theorem trailing_slash_ignored http_post R G D recycling g a r :
  let url := String a r in
  (forall t, url <> (t ++ "/")%string) ->
  Config.endpoint (Config.mkEnv R G (Some url) D)
  = (url ++ "/api/batches")%string
  /\ Config.endpoint (Config.mkEnv R G (Some (url ++ "/")%string) D)
     = (url ++ "/api/batches")%string
  /\ main http_post (Config.mkEnv R G (Some (url ++ "/")%string) D) recycling g
     = main http_post (Config.mkEnv R G (Some url) D) recycling g
  /\ Config.endpoint (Config.mkEnv R G None D)
     = Config.endpoint (Config.mkEnv R G (Some EmptyString) D).
Proof.
  intros url Hno.
  assert (E1 : Config.endpoint (Config.mkEnv R G (Some url) D)
               = (url ++ "/api/batches")%string).
  { unfold Config.endpoint, Config.DASHBOARD_URL. cbn [Config.env_DASHBOARD_URL].
    unfold url at 1. rewrite ConfigFacts.or_default_set.
    now rewrite ConfigFacts.strip_no_slash. }
  assert (E2 : Config.endpoint (Config.mkEnv R G (Some (url ++ "/")%string) D)
               = (url ++ "/api/batches")%string).
  { unfold Config.endpoint, Config.DASHBOARD_URL. cbn [Config.env_DASHBOARD_URL].
    change ((url ++ "/")%string) with (String a (r ++ "/")).
    rewrite ConfigFacts.or_default_set.
    change (String a (r ++ "/")) with ((url ++ "/")%string).
    now rewrite ConfigFacts.strip_app_slash. }
  split; [exact E1|]. split; [exact E2|]. split; [|reflexivity].
  unfold main. rewrite E1, E2. reflexivity.
Qed.

Lemma trailing_slash_ignored_witness :
  let url := String "h" "ttp://localhost:3000" in
  (forall t, url <> (t ++ "/")%string)
  /\ Config.endpoint (Config.mkEnv None None (Some url) None)
     = (url ++ "/api/batches")%string
  /\ Config.endpoint (Config.mkEnv None None (Some (url ++ "/")%string) None)
     = (url ++ "/api/batches")%string
  /\ main recording_service
       (Config.mkEnv None None (Some (url ++ "/")%string) None) acme_small []
     = main recording_service (Config.mkEnv None None (Some url) None)
         acme_small []
  /\ Config.endpoint (Config.mkEnv None None None None)
     = Config.endpoint (Config.mkEnv None None (Some EmptyString) None).
Proof.
  cbv zeta.
  assert (H : forall t, "http://localhost:3000" <> (t ++ "/")%string).
  { intros t Ht.
    assert (E : Config.strip_trailing_slash "http://localhost:3000"
                = Config.strip_trailing_slash (t ++ "/")) by now rewrite <- Ht.
    rewrite ConfigFacts.strip_app_slash in E. subst t. discriminate Ht. }
  split; [exact H|].
  exact (@trailing_slash_ignored recording_service None None None
           acme_small [] "h" "ttp://localhost:3000" H).
Defined.



(** ** The process *)



(** ** The correction write *)


(** ** Recognising one's own batches by name *)

Lemma submit_part_grew_named dashboard c queries statesArray totalParts i st :
  names_batches dashboard ->
  grew_by (named_for c) st
    (submit_part dashboard c queries statesArray totalParts i st).
Proof.
  intros Hd.
  destruct (submit_part_cases dashboard c queries statesArray totalParts i st)
    as [[_ ->] | (batchId & g & Hpost & ->)].
  - exists []. cbn [state_of emit gmaps created]. rewrite app_nil_r. simpl.
    repeat split; [lia | constructor].
  - destruct (Hd _ _ _ _ Hpost) as [Hfresh (cn & link & Hg)].
    cbn [Payload.name payload_of] in Hg.
    exists [JobsBatch.mk batchId
              (batch_name (campaign_name c) totalParts (i + 1))
              (if (1 <? totalParts)%nat then Some (campaign_name c) else cn)
              link].
    cbn [state_of gmaps created List.length].
    split; [|split; [lia|]].
    + subst g. destruct (1 <? totalParts)%nat; [|reflexivity].
      unfold update_campaign_name. rewrite map_app.
      fold (update_campaign_name (campaign_name c) batchId (gmaps st)).
      rewrite update_campaign_name_fresh by exact Hfresh.
      simpl. rewrite String.eqb_refl. reflexivity.
    + constructor; [|constructor]. apply batch_name_starts_with.
Qed.

(** One campaign of an effective run that reaches its end, against a
    dashboard that stores at least the names. *)
Lemma process_campaign_then_skipped dashboard recycling c st st' :
  names_batches dashboard ->
  Sql.no_backslash (campaign_name c) = true ->
  process_campaign dashboard false recycling c st = Completed st' ->
  exists extra,
    gmaps st' = gmaps st ++ extra
    /\ is_skipped recycling (gmaps st') c = true.
Proof.
  intros Hd Hn Hrun.
  destruct (Nat.eq_dec (count_existing (gmaps st) c) 0) as [H0|H0].
  - destruct (select_cities recycling (id c)) as [|city l] eqn:Hc.
    + rewrite (process_campaign_no_cities dashboard false recycling c st H0 Hc)
        in Hrun.
      injection Hrun as <-. exists []. cbn [gmaps]. rewrite app_nil_r.
      split; [reflexivity|]. unfold is_skipped. rewrite Hc. apply orb_true_r.
    + assert (Hne : select_cities recycling (id c) <> []) by congruence.
      rewrite (process_campaign_planned dashboard false recycling c st H0 Hne)
        in Hrun.
      cbv zeta in Hrun.
      pose proof (totalParts_positive recycling c Hne) as Hpos.
      match type of Hrun with
      | submit_parts _ _ ?q ?s ?P (seq 0 ?P) ?s0 = _ =>
          destruct (@submit_parts_counts dashboard c q s P P 0 s0 eq_refl)
            as (evs & _ & Hcr & _ & _ & _ & _ & _ & Hall);
          assert (Hgrew : grew_by (named_for c) s0
                            (submit_parts dashboard c q s P (seq 0 P) s0))
            by (apply submit_parts_along;
                [apply grew_by_done | apply grew_by_then
                | intros i s' _; now apply submit_part_grew_named])
      end.
      rewrite Hrun in Hcr, Hall, Hgrew. cbn [state_of failed created] in *.
      destruct Hgrew as (extra & Hg & Hlen & Hq).
      cbn [state_of gmaps created] in Hg, Hlen.
      specialize (Hall eq_refl).
      exists extra. split; [exact Hg|].
      destruct extra as [|b extra]; [simpl in Hlen; lia|].
      inversion Hq as [|? ? Hb _]; subst.
      unfold is_skipped. apply orb_true_iff. left. apply Nat.ltb_lt.
      rewrite Hg. apply count_existing_pos. exists b. split.
      * apply in_or_app. right. now left.
      * apply existing_work_matches; [exact Hn|]. right. right. exact Hb.
  - rewrite (process_campaign_existing dashboard false recycling c st) in Hrun
      by lia.
    injection Hrun as <-. exists []. cbn [gmaps]. rewrite app_nil_r.
    split; [reflexivity|].
    unfold is_skipped. apply orb_true_iff. left. apply Nat.ltb_lt. lia.
Qed.

Lemma campaign_loop_then_skipped dashboard recycling campaigns :
  names_batches dashboard ->
  Forall (fun c => Sql.no_backslash (campaign_name c) = true) campaigns ->
  forall st st',
    campaign_loop dashboard false recycling campaigns st = Completed st' ->
    exists extra,
      gmaps st' = gmaps st ++ extra
      /\ Forall (fun c => is_skipped recycling (gmaps st') c = true) campaigns.
Proof.
  intros Hd. induction 1 as [|c rest Hc Hrest IH]; intros st st' Hrun.
  - injection Hrun as <-. exists []. rewrite app_nil_r.
    split; [reflexivity | constructor].
  - cbn [campaign_loop] in Hrun.
    destruct (process_campaign dashboard false recycling c st) as [st1|st1]
      eqn:Hp; cbn [bind] in Hrun; [|discriminate].
    destruct (process_campaign_then_skipped recycling c st Hd Hc Hp)
      as (e1 & Hg1 & Hs1).
    destruct (IH _ _ Hrun) as (e2 & Hg2 & Hs2).
    exists (e1 ++ e2). split; [now rewrite Hg2, Hg1, app_assoc|].
    constructor; [|exact Hs2]. rewrite Hg2. now apply is_skipped_app.
Qed.

(** Running twice is safe even when the dashboard does not store the link
    to the source campaign: if it stores the requested names, and no
    selected campaign has a backslash in its name, then after a run that
    reached its end a second run sends nothing, writes nothing and creates
    nothing. *)
Theorem rerun_safe_by_name dashboard recycling g st1 :
  names_batches dashboard ->
  Forall (fun c => Sql.no_backslash (campaign_name c) = true)
    (select_campaigns recycling) ->
  run dashboard false recycling g = Completed st1 ->
  exists st2,
    run dashboard false recycling (gmaps st1) = Completed st2
    /\ created st2 = 0
    /\ gmaps st2 = gmaps st1
    /\ posted (console st2) = []
    /\ updates (console st2) = [].
Proof.
  intros Hd Hnames Hrun.
  destruct (run_completed _ _ _ _ Hrun) as (st0 & Hloop & ->).
  cbn [emit gmaps].
  destruct (campaign_loop_then_skipped recycling Hd Hnames _ Hloop)
    as (extra & _ & Hs).
  set (start := mkRunState 0 0 (gmaps st0)
                  [LogFound (List.length (select_campaigns recycling))]).
  destruct (@campaign_loop_quiet dashboard false recycling
              (select_campaigns recycling) start (or_intror Hs))
    as (st' & evs & Hl & Hcr & Hgm & Hcon & Hpo & Hup).
  exists (emit (LogDone (created st') (skipped st')) st').
  split; [unfold run; cbv zeta; fold start; rewrite Hl; reflexivity|].
  unfold emit; cbn [created gmaps console].
  split; [exact Hcr|]. split; [exact Hgm|].
  split; [rewrite Hcon, !posted_app, Hpo; reflexivity|].
  rewrite Hcon, !updates_app, Hup. reflexivity.
Qed.

Lemma forgetful_dashboard_names : names_batches forgetful_dashboard.
Proof.
  intros p g batchId g' H. unfold forgetful_dashboard in H.
  injection H as <- <-. split; [apply fresh_id_fresh|].
  do 2 eexists. reflexivity.
Qed.

Lemma rerun_safe_by_name_witness :
  let st1 := state_of (run forgetful_dashboard false two_campaigns []) in
  names_batches forgetful_dashboard
  /\ Forall (fun c => Sql.no_backslash (campaign_name c) = true)
       (select_campaigns two_campaigns)
  /\ run forgetful_dashboard false two_campaigns [] = Completed st1
  /\ exists st2,
      run forgetful_dashboard false two_campaigns (gmaps st1) = Completed st2
      /\ created st2 = 0
      /\ gmaps st2 = gmaps st1
      /\ posted (console st2) = []
      /\ updates (console st2) = [].
Proof.
  cbv zeta.
  assert (H2 : Forall (fun c => Sql.no_backslash (campaign_name c) = true)
                 (select_campaigns two_campaigns))
    by (repeat constructor).
  assert (H3 : run forgetful_dashboard false two_campaigns []
               = Completed
                   (state_of (run forgetful_dashboard false two_campaigns [])))
    by (vm_compute; reflexivity).
  split; [exact forgetful_dashboard_names|].
  split; [exact H2|]. split; [exact H3|].
  exact (@rerun_safe_by_name forgetful_dashboard two_campaigns [] _
           forgetful_dashboard_names H2 H3).
Defined.
